(** * HTML-to-PDF report generator: the fallback chain and its backends

    A shallow embedding of [generate_pdf.py] (pdfkit / wkhtmltopdf) and
    [generate_pdf_advanced.py] (WeasyPrint, then reportlab with
    BeautifulSoup) and the properties of their fallback procedure.

    The scripts are sequences of library calls, prints and [try]/[except]
    blocks. They are embedded in a state-and-exception monad over the state
    of one Python process: the loaded modules ([sys.modules]), the files the
    scripts touch, and the chronological trace of what the process did
    (lines printed, shell commands, conversion calls). What the third-party
    libraries and the package index do is not in the repository: it is a
    record of oracles, [Env], over which every theorem quantifies. *)

From stdpp Require Import base strings list gmap pretty.
From Stdlib Require Import ZArith NArith Lia.

Open Scope string_scope.
Open Scope list_scope.

(** ** Strings *)

(** The one-character strings that a literal of this file cannot hold. *)
Definition nl : string := String (Ascii.ascii_of_nat 10) "".
Definition dq : string := String (Ascii.ascii_of_nat 34) "".

(** [s * n] on Python strings. *)
Fixpoint str_repeat (s : string) (n : nat) : string :=
  match n with
  | O => ""
  | S k => s +:+ str_repeat s k
  end.

(** [s.startswith(p)]. *)
Fixpoint startswith (p s : string) : bool :=
  match p with
  | EmptyString => true
  | String a p' =>
      match s with
      | EmptyString => false
      | String b s' => Ascii.eqb a b && startswith p' s'
      end
  end.

(** Text taken from the input document is a Python [str]: a sequence of
    Unicode code points. *)
Definition text : Type := list N.

(** A literal of the source as document text (its characters are ASCII). *)
Fixpoint lit (s : string) : text :=
  match s with
  | EmptyString => []
  | String a r => Ascii.N_of_ascii a :: lit r
  end.

(** [str.isspace] on one code point: the table of CPython's
    [_PyUnicode_IsWhitespace]. *)
Definition is_space (c : N) : bool :=
  ((9 <=? c) && (c <=? 13) || (28 <=? c) && (c <=? 32)
   || (c =? 133) || (c =? 160) || (c =? 5760)
   || (8192 <=? c) && (c <=? 8202)
   || (c =? 8232) || (c =? 8233) || (c =? 8239) || (c =? 8287)
   || (c =? 12288))%N.

Fixpoint lstrip (t : text) : text :=
  match t with
  | [] => []
  | c :: r => if is_space c then lstrip r else t
  end.

(** [str.strip()] with no argument. *)
Definition strip (t : text) : text := rev (lstrip (rev (lstrip t))).

(** ** Exceptions *)

(** The classes of Python's hierarchy below [Exception] that the scripts
    name or that the calls they make raise. Signals that derive from
    [BaseException] only ([KeyboardInterrupt], [SystemExit]) come from the
    interpreter or the user, not from a library call, and are not modelled. *)
Inductive exc_class :=
| Exception
| ImportError
| ModuleNotFoundError
| OSError
| FileNotFoundError
| ValueError
| RuntimeError.

#[global] Instance exc_class_eq_dec : EqDecision exc_class.
Proof. solve_decision. Defined.

(** [issubclass c d]: [ModuleNotFoundError] derives from [ImportError],
    [FileNotFoundError] from [OSError], everything from [Exception]. *)
Definition issubclass (c d : exc_class) : bool :=
  match d with
  | Exception => true
  | ImportError =>
      match c with ImportError | ModuleNotFoundError => true | _ => false end
  | OSError =>
      match c with OSError | FileNotFoundError => true | _ => false end
  | _ => bool_decide (c = d)
  end.

(** An exception instance: its class and [str(e)]. *)
Record exn := Exn { exn_class : exc_class; exn_msg : string }.

(** ** Values a function of the scripts returns *)

Inductive pyvalue :=
| PyNone
| PyBool (b : bool).

(** Truth value testing of [if v:]. *)
Definition truthy (v : pyvalue) : bool :=
  match v with
  | PyNone => false
  | PyBool b => b
  end.

(** ** The parsed document (BeautifulSoup) *)

(** A tag with its name, its [class] attribute split into tokens and its
    children, or a string of text. *)
Inductive node :=
| NText (t : text)
| NTag (name : string) (classes : list string) (children : list node).

(** The strict descendants of a node in document order, as [Tag.descendants]
    yields them. *)
Fixpoint descendants (n : node) : list node :=
  match n with
  | NText _ => []
  | NTag _ _ cs => flat_map (fun c => c :: descendants c) cs
  end.

(** [Tag.__bool__] answers [True] for every tag, so [if tag:] only asks
    whether [find] returned a tag or [None]: [find] gives an [option]. *)
Definition tag_matches (name : string) (class_ : option string) (n : node) : bool :=
  match n with
  | NText _ => false
  | NTag nm cls _ =>
      String.eqb nm name &&
      match class_ with
      | None => true
      | Some c => existsb (String.eqb c) cls
      end
  end.

(** [tag.find_all(name, class_=c)]: every matching descendant, in document
    order. *)
Definition find_all (name : string) (class_ : option string) (n : node) : list node :=
  filter (fun d => tag_matches name class_ d = true) (descendants n).

(** [tag.find(name, class_=c)]: the first match or [None]. *)
Definition find (name : string) (class_ : option string) (n : node) : option node :=
  head (find_all name class_ n).

(** [tag.get_text()]: the text strings below the node, concatenated. *)
Fixpoint get_text (n : node) : text :=
  match n with
  | NText t => t
  | NTag _ _ cs => flat_map get_text cs
  end.

(** ** The reportlab story *)

Inductive style :=
| SampleStyle (name : string)
| ParagraphStyle (name : string) (parent : style) (fontSize spaceAfter : Z)
    (textColor : string) (alignment : Z).

Inductive flowable :=
| Paragraph (t : text) (st : style)
| Spacer (width height : Z).

(** ** Formatting configurations *)

(** A value of the pdfkit options dictionary. *)
Inductive optval :=
| OStr (s : string)
| OInt (z : Z)
| ONone.

(** A CSS rule of the WeasyPrint stylesheet: the [@page] rule with its
    margin boxes, or a style rule. *)
Inductive css_rule :=
| PageRule (decls : list (string * string))
    (boxes : list (string * list (string * string)))
| StyleRule (selector : string) (decls : list (string * string)).

(** ** The process and its environment *)

Inductive event :=
| Print (line : string)
| System (cmd : string)
| FromFile (input output : string) (options : gmap string optval)
| WritePdf (input output : string) (stylesheets : list (list css_rule))
| Build (output pagesize : string) (story : list flowable).

Record process := Process {
  sys_modules : gset string;
  files : gmap string string;
  trace : list event
}.

(** The process after one more event. *)
Definition logged (s : process) (ev : event) : process :=
  Process (sys_modules s) (files s) (trace s ++ [ev]).

(** The process after a module was loaded. *)
Definition loaded (s : process) (m : string) : process :=
  Process ({[m]} ∪ sys_modules s) (files s) (trace s).

(** The process after a file was written. *)
Definition written (s : process) (path bytes : string) : process :=
  Process (sys_modules s) (<[path := bytes]> (files s)) (trace s).

(** The process with other modules loaded. *)
Definition with_modules (mods : gset string) (s : process) : process :=
  Process mods (files s) (trace s).

(** The shell commands the process has run so far. *)
Definition commands (tr : list event) : list string :=
  omap (fun ev => match ev with System c => Some c | _ => None end) tr.

(** What lies outside the repository. A conversion routine either raises,
    and then leaves the output path as it was, or produces the bytes of the
    document, which are then written to the output path. *)
Record Env := {
  (** loading a module that is not in [sys.modules], given the shell
      commands run so far: [None] when the module is found and its body
      runs, or the exception the import statement raises *)
  finder : list string -> string -> option exn;
  (** [pdfkit.from_file(input, output, options=options)] *)
  pdfkit_from_file :
    gmap string string -> string -> gmap string optval -> exn + string;
  (** [CSS(string=...)] *)
  weasyprint_CSS : list css_rule -> option exn;
  (** [HTML(filename=input).write_pdf(output, stylesheets=..,
      font_config=FontConfiguration())] *)
  weasyprint_write_pdf :
    gmap string string -> string -> list (list css_rule) -> exn + string;
  (** [BeautifulSoup(html_content, 'html.parser')] *)
  BeautifulSoup : string -> exn + node;
  (** [Paragraph(text, style)]: reportlab parses the text as markup when
      the paragraph is constructed, and raises on what it cannot parse *)
  reportlab_Paragraph : text -> style -> option exn;
  (** [SimpleDocTemplate(output, pagesize=..).build(story)] *)
  reportlab_build : string -> list flowable -> exn + string
}.

(** ** The monad of the scripts *)

Inductive outcome (A : Type) :=
| Return (a : A)
| Raise (e : exn).
Arguments Return {A} a.
Arguments Raise {A} e.

Definition M (A : Type) : Type := Env -> process -> outcome A * process.

#[global] Instance M_ret : MRet M := fun A a _ s => (Return a, s).

#[global] Instance M_bind : MBind M := fun A B f m W s =>
  match m W s with
  | (Return a, s') => f a W s'
  | (Raise e, s') => (Raise e, s')
  end.

Definition raise {A} (e : exn) : M A := fun _ s => (Raise e, s).

(** [try: body except cls as e: handler e]. *)
Definition try_except {A} (body : M A) (cls : exc_class) (handler : exn -> M A) : M A :=
  fun W s =>
    match body W s with
    | (Raise e, s') =>
        if issubclass (exn_class e) cls then handler e W s' else (Raise e, s')
    | r => r
    end.

(** [try: body except: handler], the bare clause that catches everything. *)
Definition try_except_all {A} (body : M A) (handler : M A) : M A :=
  fun W s =>
    match body W s with
    | (Raise _, s') => handler W s'
    | r => r
    end.

Definition emit (ev : event) : M unit := fun _ s => (Return (), logged s ev).

Definition print (line : string) : M unit := emit (Print line).

(** [os.system(cmd)]: the command runs in a shell and its exit status comes
    back (the scripts ignore it); a failing command does not raise. What the
    command installed shows in what [finder] answers afterwards. *)
Definition os_system (cmd : string) : M unit := emit (System cmd).

(** [import m], also the module part of [from m import names]: a module
    already in [sys.modules] is not loaded again. *)
Definition import_ (m : string) : M unit := fun W s =>
  if decide (m ∈ sys_modules s) then (Return (), s)
  else match finder W (commands (trace s)) m with
       | None => (Return (), loaded s m)
       | Some e => (Raise e, s)
       end.

(** [os.path.exists(path)] *)
Definition path_exists (path : string) : M bool := fun _ s =>
  (Return (bool_decide (is_Some (files s !! path))), s).

Definition no_such_file (path : string) : exn :=
  Exn FileNotFoundError
    ("[Errno 2] No such file or directory: '" +:+ path +:+ "'").

(** [os.path.getsize(path)] *)
Definition getsize (path : string) : M N := fun _ s =>
  match files s !! path with
  | Some c => (Return (N.of_nat (String.length c)), s)
  | None => (Raise (no_such_file path), s)
  end.

(** [with open(path, 'r', encoding='utf-8') as f: f.read()] *)
Definition read_file (path : string) : M string := fun _ s =>
  match files s !! path with
  | Some c => (Return c, s)
  | None => (Raise (no_such_file path), s)
  end.

(** A conversion call: the call is recorded, and its result either raises
    or is written to the output path. *)
Definition convert (ev : event) (output : string) (r : Env -> process -> exn + string) : M unit :=
  fun W s =>
    match r W s with
    | inl e => (Raise e, logged s ev)
    | inr bytes => (Return (), written (logged s ev) output bytes)
    end.

(** The [.2f] rendering of [file_size / 1024 / 1024]. Dividing by a power of
    two is exact on floats for any size below 2^53, and [.2f] rounds the
    exact value to the nearest hundredth, ties to even. *)
Definition mb_hundredths (file_size : N) : N :=
  let q := (file_size * 100 / 1048576)%N in
  let r := (file_size * 100 mod 1048576)%N in
  if (r <? 524288)%N then q
  else if (524288 <? r)%N then (q + 1)%N
  else if N.even q then q else (q + 1)%N.

Definition format_mb (file_size : N) : string :=
  let h := mb_hundredths file_size in
  pretty (h / 100)%N +:+ "." +:+ pretty (h mod 100 / 10)%N +:+ pretty (h mod 10)%N.

(** A library call that yields nothing the script keeps, or raises. *)
Definition library_call (r : Env -> option exn) : M unit := fun W s =>
  match r W with
  | None => (Return (), s)
  | Some e => (Raise e, s)
  end.

(** A library call that yields a value, or raises. *)
Definition library_value {A} (r : Env -> exn + A) : M A := fun W s =>
  match r W with
  | inl e => (Raise e, s)
  | inr a => (Return a, s)
  end.

(** [for x in xs: acc = body(acc, x)]: a loop that updates [acc], and that
    an exception of its body leaves. *)
Fixpoint for_each {A S} (xs : list A) (body : S -> A -> M S) (acc : S) : M S :=
  match xs with
  | [] => mret acc
  | x :: rest => acc' ← body acc x; for_each rest body acc'
  end.

(** [Paragraph(text, style)] *)
Definition new_Paragraph (t : text) (st : style) : M flowable := fun W s =>
  match reportlab_Paragraph W t st with
  | None => (Return (Paragraph t st), s)
  | Some e => (Raise e, s)
  end.

(** ** generate_pdf.py *)

Module GeneratePdf.

Definition html_file : string :=
  "/home/mosaajii/Documents/MH-POS/business-ideas-africa.html".
Definition pdf_file : string :=
  "/home/mosaajii/Documents/MH-POS/Top-20-Business-Ideas-Kenya-Africa.pdf".

(** PDF options for professional formatting. *)
Definition options : gmap string optval :=
  list_to_map [
    ("page-size", OStr "A4");
    ("margin-top", OStr "0.75in");
    ("margin-right", OStr "0.75in");
    ("margin-bottom", OStr "0.75in");
    ("margin-left", OStr "0.75in");
    ("encoding", OStr "UTF-8");
    ("no-outline", ONone);
    ("enable-local-file-access", ONone);
    ("print-media-type", ONone);
    ("disable-smart-shrinking", ONone);
    ("page-offset", OInt 0);
    ("footer-center", OStr "Page [page] of [topage]");
    ("footer-font-size", OStr "9");
    ("footer-spacing", OInt 5);
    ("header-center", OStr "Top 20 Scalable Business Ideas for Kenya & Africa");
    ("header-font-size", OStr "9");
    ("header-spacing", OInt 5);
    ("minimum-font-size", OStr "12")
  ].

Definition generate_pdf : M pyvalue :=
  try_except
    (found ← path_exists html_file;
     if negb found then
       print ("Error: HTML file not found at " +:+ html_file);;
       mret (PyBool false)
     else
       print "Converting HTML to PDF...";;
       print ("Input: " +:+ html_file);;
       print ("Output: " +:+ pdf_file);;
       convert (FromFile html_file pdf_file options) pdf_file
         (fun W s => pdfkit_from_file W (files s) html_file options);;
       print ("✅ PDF successfully created: " +:+ pdf_file);;
       file_size ← getsize pdf_file;
       print ("📄 File size: " +:+ format_mb file_size +:+ " MB");;
       mret (PyBool true))
    Exception
    (fun e =>
       print ("❌ Error generating PDF: " +:+ exn_msg e);;
       print (nl +:+ "💡 Note: This script requires wkhtmltopdf to be installed.");;
       print "Install it with: sudo apt-get install wkhtmltopdf";;
       mret (PyBool false)).

(** The function has no [return] statement: it yields [None]. *)
Definition install_requirements : M pyvalue :=
  try_except
    (import_ "pdfkit";;
     print "✅ pdfkit is already installed")
    ImportError
    (fun _ =>
       print "📦 Installing pdfkit...";;
       os_system "pip install pdfkit");;
  mret PyNone.

(** The [if __name__ == "__main__":] block. *)
Definition main_block : M unit :=
  print "🚀 Business Ideas PDF Generator";;
  print (str_repeat "=" 50);;
  install_requirements;;
  success ← generate_pdf;
  if truthy success then
    print (nl +:+ "🎉 PDF generation completed successfully!");;
    print "📁 You can find your PDF in the MH-POS directory"
  else
    print (nl +:+ "⚠️  PDF generation failed. Please check the error messages above.").

(** Running the file: its top-level statements in order. The imports of
    [os] and [pathlib] load standard-library modules and the two [def]s
    bind names; only [import pdfkit] can fail. *)
Definition module_body : M unit :=
  import_ "pdfkit";;
  main_block.

End GeneratePdf.

(** ** generate_pdf_advanced.py *)

Module GeneratePdfAdvanced.

Definition html_file : string :=
  "/home/mosaajii/Documents/MH-POS/business-ideas-africa.html".

(** Install WeasyPrint if not available. *)
Definition install_weasyprint : M pyvalue :=
  try_except
    (import_ "weasyprint";;
     print "✅ WeasyPrint is already installed";;
     mret (PyBool true))
    ImportError
    (fun _ =>
       print "📦 Installing WeasyPrint...";;
       try_except
         (os_system "pip install weasyprint";;
          import_ "weasyprint";;
          print "✅ WeasyPrint installed successfully";;
          mret (PyBool true))
         Exception
         (fun e =>
            print ("❌ Failed to install WeasyPrint: " +:+ exn_msg e);;
            mret (PyBool false))).

(** Additional CSS for better PDF formatting. *)
Definition pdf_css : list css_rule := [
  PageRule
    [("margin", "2cm"); ("size", "A4")]
    [("@bottom-center",
      [("content",
        dq +:+ "Page " +:+ dq +:+ " counter(page) " +:+ dq +:+ " of " +:+ dq
           +:+ " counter(pages)");
       ("font-size", "10pt");
       ("color", "#666")]);
     ("@top-center",
      [("content",
        dq +:+ "Top 20 Scalable Business Ideas for Kenya & Africa" +:+ dq);
       ("font-size", "10pt");
       ("color", "#666");
       ("border-bottom", "1px solid #ccc");
       ("padding-bottom", "5px")])];
  StyleRule "body" [("font-size", "11pt"); ("line-height", "1.4")];
  StyleRule ".business-idea"
    [("page-break-inside", "avoid"); ("margin-bottom", "20px")];
  StyleRule ".tier" [("page-break-before", "auto")];
  StyleRule ".header h1" [("font-size", "24pt")];
  StyleRule "h2" [("font-size", "16pt"); ("page-break-after", "avoid")];
  StyleRule "h3" [("font-size", "14pt"); ("page-break-after", "avoid")]
].

Definition weasyprint_pdf_file : string :=
  "/home/mosaajii/Documents/MH-POS/Top-20-Business-Ideas-Kenya-Africa.pdf".

(** Generate PDF using WeasyPrint. *)
Definition generate_pdf_weasyprint : M pyvalue :=
  let pdf_file := weasyprint_pdf_file in
  try_except
    (import_ "weasyprint";;
     import_ "weasyprint.text.fonts";;
     found ← path_exists html_file;
     if negb found then
       print ("Error: HTML file not found at " +:+ html_file);;
       mret (PyBool false)
     else
       print "Converting HTML to PDF with WeasyPrint...";;
       print ("Input: " +:+ html_file);;
       print ("Output: " +:+ pdf_file);;
       library_call (fun W => weasyprint_CSS W pdf_css);;
       convert (WritePdf html_file pdf_file [pdf_css]) pdf_file
         (fun W s => weasyprint_write_pdf W (files s) html_file [pdf_css]);;
       print ("✅ PDF successfully created: " +:+ pdf_file);;
       file_size ← getsize pdf_file;
       print ("📄 File size: " +:+ format_mb file_size +:+ " MB");;
       mret (PyBool true))
    Exception
    (fun e =>
       print ("❌ Error generating PDF with WeasyPrint: " +:+ exn_msg e);;
       mret (PyBool false)).

Definition alternative_pdf_file : string :=
  "/home/mosaajii/Documents/MH-POS/Top-20-Business-Ideas-Kenya-Africa-Simple.pdf".

Definition title_style : style :=
  ParagraphStyle "CustomTitle" (SampleStyle "Heading1") 20 30 "#2c5530" 1.

(** The body of the loop over the detail rows of one entry: the story
    after the row. *)
Definition detail_row_step (story : list flowable) (detail_row : node) : M (list flowable) :=
  let label := find "div" (Some "detail-label") detail_row in
  let content := find "div" (Some "detail-content") detail_row in
  match label, content with
  | Some label, Some content =>
      let label_text := strip (get_text label) in
      let content_text := strip (get_text content) in
      paragraph ← new_Paragraph
        (lit "<b>" ++ label_text ++ lit "</b> " ++ content_text)
        (SampleStyle "Normal");
      mret ((story ++ [paragraph]) ++ [Spacer 1 6])
  | _, _ => mret story
  end.

(** The body of the loop over the entries. *)
Definition business_idea_step (story : list flowable) (business_idea : node) : M (list flowable) :=
  let title := find "h3" None business_idea in
  story ←
    match title with
    | Some title =>
        let title_text := strip (get_text title) in
        paragraph ← new_Paragraph title_text (SampleStyle "Heading2");
        mret ((story ++ [paragraph]) ++ [Spacer 1 12])
    | None => mret story
    end;
  story ←
    for_each (find_all "div" (Some "detail-row") business_idea)
      detail_row_step story;
  mret (story ++ [Spacer 1 20]).

(** The story handed to [doc.build]: the title, then the extracted
    entries. *)
Definition build_story (soup : node) : M (list flowable) :=
  let story := [] in
  paragraph ← new_Paragraph
    (lit "Top 20 Scalable Business Ideas for Kenya & Africa") title_style;
  let story := story ++ [paragraph] in
  let story := story ++ [Spacer 1 20] in
  for_each (find_all "div" (Some "business-idea") soup)
    business_idea_step story.

(** Alternative method using reportlab. The imports of the function: the
    reportlab modules, [bs4], and the standard library's [re]. *)
Definition generate_pdf_alternative : M pyvalue :=
  let pdf_file := alternative_pdf_file in
  try_except
    (import_ "reportlab.lib.pagesizes";;
     import_ "reportlab.platypus";;
     import_ "reportlab.lib.styles";;
     import_ "reportlab.lib.units";;
     import_ "reportlab.lib";;
     import_ "bs4";;
     print "Using ReportLab alternative method...";;
     html_content ← read_file html_file;
     soup ← library_value (fun W => BeautifulSoup W html_content);
     story ← build_story soup;
     convert (Build pdf_file "A4" story) pdf_file
       (fun W _ => reportlab_build W "A4" story);;
     print ("✅ Simple PDF created: " +:+ pdf_file);;
     mret (PyBool true))
    Exception
    (fun e =>
       print ("❌ Error with alternative method: " +:+ exn_msg e);;
       mret (PyBool false)).

(** Manual instructions if all else fails. *)
Definition manual_instructions : M unit :=
  print (nl +:+ "⚠️  Automatic PDF generation failed.");;
  print (nl +:+ "📋 Manual Instructions:");;
  print "1. Open the file: /home/mosaajii/Documents/MH-POS/business-ideas-africa.html";;
  print "2. Open it in your web browser (Chrome, Firefox, etc.)";;
  print "3. Use Ctrl+P to print";;
  print "4. Select 'Save as PDF' as the destination";;
  print "5. Save as 'Top-20-Business-Ideas-Kenya-Africa.pdf'".

(** [main] from its comment [# Try alternative method] on: where control
    goes when the WeasyPrint branch did not [return]. The [try] block
    yields whether it hit its [return]. *)
Definition try_alternative : M pyvalue :=
  print (nl +:+ "📝 Trying alternative PDF generation method...");;
  returned ←
    try_except_all
      (os_system "pip install reportlab beautifulsoup4";;
       ok ← generate_pdf_alternative;
       if truthy ok then
         print (nl +:+ "🎉 PDF generation completed with alternative method!");;
         mret true
       else mret false)
      (mret false);
  if returned : bool then mret PyNone
  else manual_instructions;; mret PyNone.

(** Main function to generate PDF. *)
Definition main : M pyvalue :=
  print "🚀 Business Ideas PDF Generator";;
  print (str_repeat "=" 50);;
  available ← install_weasyprint;
  if truthy available then
    ok ← generate_pdf_weasyprint;
    if truthy ok then
      print (nl +:+ "🎉 PDF generation completed successfully with WeasyPrint!");;
      mret PyNone
    else try_alternative
  else try_alternative.

End GeneratePdfAdvanced.

(** ** Reasoning about a run *)

(** [wp m W s Q]: the run of [m] from [s] in environment [W] ends with a
    result and a process that satisfy [Q]. Every run ends: [M] is a total
    function. *)
Definition wp {A} (m : M A) (W : Env) (s : process)
    (Q : outcome A -> process -> Prop) : Prop :=
  Q (m W s).1 (m W s).2.

(** [s'] is [s] after the events [evs], whatever else changed. *)
Definition extends (s : process) (evs : list event) (s' : process) : Prop :=
  trace s' = trace s ++ evs.

(** A module can be imported in [s]: it is loaded, or loading it works. *)
Definition importable (W : Env) (s : process) (m : string) : Prop :=
  m ∈ sys_modules s \/ finder W (commands (trace s)) m = None.

(** A printed line is one of the lines that only
    [generate_pdf_alternative] prints. *)
Definition alternative_line (line : string) : bool :=
  startswith "Using ReportLab alternative method..." line
  || startswith "❌ Error with alternative method: " line
  || startswith "✅ Simple PDF created: " line.

(** An event that only the fallback leaves: the installation of its
    libraries by [main], a line of [generate_pdf_alternative], or the
    reportlab build. *)
Definition fallback_event (ev : event) : bool :=
  match ev with
  | Print line => alternative_line line
  | System cmd => String.eqb cmd "pip install reportlab beautifulsoup4"
  | Build _ _ _ => true
  | _ => false
  end.

(** A conversion routine of a backend was entered. *)
Definition conversion_call (ev : event) : bool :=
  match ev with
  | FromFile _ _ _ | WritePdf _ _ _ | Build _ _ _ => true
  | _ => false
  end.

(** The two places of [generate_pdf.py]'s on-demand installation. *)
Definition pdfkit_install_event (ev : event) : bool :=
  match ev with
  | Print line => String.eqb line "📦 Installing pdfkit..."
  | System cmd => String.eqb cmd "pip install pdfkit"
  | _ => false
  end.

Import GeneratePdfAdvanced.

(** The trace of [s'] ends with the events [evs]. *)
Definition ends_with (s' : process) (evs : list event) : Prop :=
  exists tr, trace s' = tr ++ evs.

(** The process a run ends in. *)
Definition exec {A} (m : M A) (W : Env) (s : process) : process := (m W s).2.

(** The modules that [generate_pdf_weasyprint] and
    [generate_pdf_alternative] import. *)
Definition weasyprint_modules : list string :=
  ["weasyprint"; "weasyprint.text.fonts"].
Definition alternative_modules : list string :=
  ["reportlab.lib.pagesizes"; "reportlab.platypus"; "reportlab.lib.styles";
   "reportlab.lib.units"; "reportlab.lib"; "bs4"].

(** The first two statements of [main]. *)
Definition main_banner : M unit :=
  print "🚀 Business Ideas PDF Generator";;
  print (str_repeat "=" 50).

(** What [main] does between the WeasyPrint branch and the call of
    [generate_pdf_alternative]. *)
Definition alternative_prelude : M unit :=
  print (nl +:+ "📝 Trying alternative PDF generation method...");;
  os_system "pip install reportlab beautifulsoup4".

(** A line that tells the user that the input document is missing: the
    message of the explicit check, or the [FileNotFoundError] of [open] as
    [generate_pdf_alternative] prints it. *)
Definition missing_input_report (ev : event) : bool :=
  match ev with
  | Print line =>
      String.eqb line ("Error: HTML file not found at " +:+ html_file)
      || String.eqb line
           ("❌ Error with alternative method: " +:+ exn_msg (no_such_file html_file))
  | _ => false
  end.

(** A line that reports a file size. *)
Definition size_report (ev : event) : bool :=
  match ev with
  | Print line => startswith "📄 File size: " line
  | _ => false
  end.

(** The result of a run is a boolean. *)
Definition returns_bool (r : outcome pyvalue) : Prop :=
  exists b, r = Return (PyBool b).

(** *** Sample environments and processes *)

Definition sample_soup : node :=
  NTag "[document]" []
    [NTag "div" ["business-idea"]
       [NTag "h3" [] [NText (lit "1. Mobile Money")];
        NTag "div" ["detail-row"]
          [NTag "div" ["detail-label"] [NText (lit "Market:")];
           NTag "div" ["detail-content"] [NText (lit "East Africa")]]]].

(** Every library is installed and every conversion works. *)
Definition env_ok : Env := {|
  finder := fun _ _ => None;
  pdfkit_from_file := fun _ _ _ => inr "%PDF-1.4 wkhtmltopdf";
  weasyprint_CSS := fun _ => None;
  weasyprint_write_pdf := fun _ _ _ => inr "%PDF-1.7 weasyprint";
  BeautifulSoup := fun _ => inr sample_soup;
  reportlab_Paragraph := fun _ _ => None;
  reportlab_build := fun _ _ => inr "%PDF-1.3 reportlab"
|}.

(** The first component of a dotted module name. *)
Fixpoint top_package (m : string) : string :=
  match m with
  | EmptyString => ""
  | String a rest =>
      if Ascii.eqb a (Ascii.ascii_of_nat 46) then ""
      else String a (top_package rest)
  end.

(** What importing [m] raises when its package is not installed: the
    interpreter names the first component it cannot find. *)
Definition module_not_found (m : string) : exn :=
  Exn ModuleNotFoundError ("No module named '" +:+ top_package m +:+ "'").

(** No library is installed and [pip] cannot install any. *)
Definition env_none : Env := {|
  finder := fun _ m => Some (module_not_found m);
  pdfkit_from_file := fun _ _ _ => inr "%PDF-1.4 wkhtmltopdf";
  weasyprint_CSS := fun _ => None;
  weasyprint_write_pdf := fun _ _ _ => inr "%PDF-1.7 weasyprint";
  BeautifulSoup := fun _ => inr sample_soup;
  reportlab_Paragraph := fun _ _ => None;
  reportlab_build := fun _ _ => inr "%PDF-1.3 reportlab"
|}.

(** Only WeasyPrint is missing, and stays so. *)
Definition env_no_weasyprint : Env := {|
  finder := fun _ m =>
    if startswith "weasyprint" m then Some (module_not_found m) else None;
  pdfkit_from_file := fun _ _ _ => inr "%PDF-1.4 wkhtmltopdf";
  weasyprint_CSS := fun _ => None;
  weasyprint_write_pdf := fun _ _ _ => inr "%PDF-1.7 weasyprint";
  BeautifulSoup := fun _ => inr sample_soup;
  reportlab_Paragraph := fun _ _ => None;
  reportlab_build := fun _ _ => inr "%PDF-1.3 reportlab"
|}.

(** WeasyPrint is installed but its shared libraries are not: importing it
    raises [OSError]. *)
Definition env_broken_weasyprint : Env := {|
  finder := fun _ m =>
    if startswith "weasyprint" m
    then Some (Exn OSError "cannot load library 'gobject-2.0-0'")
    else None;
  pdfkit_from_file := fun _ _ _ => inr "%PDF-1.4 wkhtmltopdf";
  weasyprint_CSS := fun _ => None;
  weasyprint_write_pdf := fun _ _ _ => inr "%PDF-1.7 weasyprint";
  BeautifulSoup := fun _ => inr sample_soup;
  reportlab_Paragraph := fun _ _ => None;
  reportlab_build := fun _ _ => inr "%PDF-1.3 reportlab"
|}.

(** The libraries are installed and every conversion routine raises. *)
Definition env_failing : Env := {|
  finder := fun _ _ => None;
  pdfkit_from_file := fun _ _ _ => inl (Exn OSError "No wkhtmltopdf executable found");
  weasyprint_CSS := fun _ => None;
  weasyprint_write_pdf := fun _ _ _ => inl (Exn ValueError "unsupported document");
  BeautifulSoup := fun _ => inr sample_soup;
  reportlab_Paragraph := fun _ _ => None;
  reportlab_build := fun _ _ => inl (Exn RuntimeError "layout failed")
|}.

(** A fresh process with the input document in place, and one without. *)
Definition with_input : process :=
  Process ∅ {[ html_file := "<html><body></body></html>" ]} [].
Definition without_input : process := Process ∅ ∅ [].

(** *** The story *)

(** What the story building of [generate_pdf_alternative] ends with: the
    story, or the exception of the first paragraph that reportlab does not
    accept. It reads and changes nothing of the process
    ([build_story_run]). *)
Definition story_result (W : Env) (soup : node) : outcome (list flowable) :=
  (build_story soup W (Process ∅ ∅ [])).1.

(** Reportlab accepts the markup of a paragraph. *)
Definition accepted (W : Env) (fl : flowable) : Prop :=
  match fl with
  | Paragraph t st => reportlab_Paragraph W t st = None
  | Spacer _ _ => True
  end.

(** The flowables of one detail row, of one entry and of a document when
    every paragraph is accepted. *)
Definition row_flowables (detail_row : node) : list flowable :=
  match find "div" (Some "detail-label") detail_row,
        find "div" (Some "detail-content") detail_row with
  | Some label, Some content =>
      [Paragraph
         (lit "<b>" ++ strip (get_text label) ++ lit "</b> " ++ strip (get_text content))
         (SampleStyle "Normal");
       Spacer 1 6]
  | _, _ => []
  end.

Definition entry_flowables (business_idea : node) : list flowable :=
  match find "h3" None business_idea with
  | Some title =>
      [Paragraph (strip (get_text title)) (SampleStyle "Heading2"); Spacer 1 12]
  | None => []
  end
  ++ flat_map row_flowables (find_all "div" (Some "detail-row") business_idea)
  ++ [Spacer 1 20].

Definition expected_story (soup : node) : list flowable :=
  [Paragraph (lit "Top 20 Scalable Business Ideas for Kenya & Africa") title_style;
   Spacer 1 20]
  ++ flat_map entry_flowables (find_all "div" (Some "business-idea") soup).

(** A computation that neither reads nor changes the process. *)
Definition stateless {A} (m : M A) : Prop :=
  forall W s s0, m W s = ((m W s0).1, s).

(** *** The story of well-formed entries *)

Fixpoint is_prefix (p t : text) : bool :=
  match p, t with
  | [], _ => true
  | a :: p', b :: t' => N.eqb a b && is_prefix p' t'
  | _ :: _, [] => false
  end.

(** [p in t] on Python strings. *)
Fixpoint is_infix (p t : text) : bool :=
  is_prefix p t || match t with [] => false | _ :: t' => is_infix p t' end.

(** The text of a paragraph contains [v]. *)
Definition paragraph_contains (v : text) (fl : flowable) : bool :=
  match fl with
  | Paragraph t _ => is_infix v t
  | Spacer _ _ => false
  end.

(** The nodes of an entry with a title and two labelled fields. *)
Record entry_nodes := EntryNodes {
  title_node : node;
  label1 : node; content1 : node;
  label2 : node; content2 : node
}.

(** [business_idea] has an [h3] title and exactly two detail rows, each
    with a label and a content, as [find] and [find_all] see them. *)
Definition has_fields (business_idea : node) (f : entry_nodes) : Prop :=
  find "h3" None business_idea = Some (title_node f) /\
  exists row1 row2,
    find_all "div" (Some "detail-row") business_idea = [row1; row2] /\
    find "div" (Some "detail-label") row1 = Some (label1 f) /\
    find "div" (Some "detail-content") row1 = Some (content1 f) /\
    find "div" (Some "detail-label") row2 = Some (label2 f) /\
    find "div" (Some "detail-content") row2 = Some (content2 f).

(** The paragraph of one field. *)
Definition field_paragraph (label content : node) : flowable :=
  Paragraph
    (lit "<b>" ++ strip (get_text label) ++ lit "</b> " ++ strip (get_text content))
    (SampleStyle "Normal").

(** The section of one entry: heading, two fields, closing spacer. *)
Definition entry_section (f : entry_nodes) : list flowable :=
  [Paragraph (strip (get_text (title_node f))) (SampleStyle "Heading2");
   Spacer 1 12;
   field_paragraph (label1 f) (content1 f); Spacer 1 6;
   field_paragraph (label2 f) (content2 f); Spacer 1 6;
   Spacer 1 20].

(** What every story starts with. *)
Definition story_head : list flowable :=
  [Paragraph (lit "Top 20 Scalable Business Ideas for Kenya & Africa") title_style;
   Spacer 1 20].

(** An entry as the report writes it, with the given title and fields. *)
Definition entry_tag (title l1 c1 l2 c2 : string) : node :=
  NTag "div" ["business-idea"]
    [NTag "h3" [] [NText (lit title)];
     NTag "div" ["detail-row"]
       [NTag "div" ["detail-label"] [NText (lit l1)];
        NTag "div" ["detail-content"] [NText (lit c1)]];
     NTag "div" ["detail-row"]
       [NTag "div" ["detail-label"] [NText (lit l2)];
        NTag "div" ["detail-content"] [NText (lit c2)]]].

(** A document with three entries; the first label is written with a space
    before it, the first content with a line break after it. *)
Definition padded_soup : node :=
  NTag "[document]" []
    [NTag "html" []
       [NTag "body" []
          [entry_tag "1. Mobile Money" " Market:" ("East Africa" +:+ nl)
             "Capital:" "Low";
           entry_tag "2. Solar Kiosks" "Market:" "Rural" "Capital:" "Medium";
           entry_tag "3. Agri Logistics" "Market:" "Regional" "Capital:" "High"]]].

(** The same three entries without padding; the first content holds an
    opening [<i>] that is never closed (in the file: [East &lt;i&gt;Africa]). *)
Definition markup_soup : node :=
  NTag "[document]" []
    [NTag "html" []
       [NTag "body" []
          [entry_tag "1. Mobile Money" "Market:" "East <i>Africa" "Capital:" "Low";
           entry_tag "2. Solar Kiosks" "Market:" "Rural" "Capital:" "Medium";
           entry_tag "3. Agri Logistics" "Market:" "Regional" "Capital:" "High"]]].

(** Every library is installed; the document parses to [markup_soup], and
    reportlab's paragraph parser rejects an [<i>] that is not closed. *)
Definition env_markup : Env := {|
  finder := fun _ _ => None;
  pdfkit_from_file := fun _ _ _ => inr "%PDF-1.4 wkhtmltopdf";
  weasyprint_CSS := fun _ => None;
  weasyprint_write_pdf := fun _ _ _ => inr "%PDF-1.7 weasyprint";
  BeautifulSoup := fun _ => inr markup_soup;
  reportlab_Paragraph := fun t _ =>
    if is_infix (lit "<i>") t && negb (is_infix (lit "</i>") t)
    then Some (Exn ValueError "Parse error: saw </para> instead of expected </i>")
    else None;
  reportlab_build := fun _ _ => inr "%PDF-1.3 reportlab"
|}.

(** *** Lengths *)

(** The declaration of [prop] in the [@page] rule of a stylesheet. *)
Definition page_declaration (css : list css_rule) (prop : string) : option string :=
  head (omap (fun r =>
    match r with
    | PageRule decls _ => snd <$> List.find (fun d => String.eqb (fst d) prop) decls
    | StyleRule _ _ => None
    end) css).

Definition digit_of (a : Ascii.ascii) : option N :=
  let n := Ascii.N_of_ascii a in
  if ((48 <=? n) && (n <=? 57))%N then Some (n - 48)%N else None.

(** Reads [digits] or [digits.digits] followed by a unit: the digits as one
    number, the count of decimals, and the unit. *)
Fixpoint read_number (s : string) (dot : bool) (n : N) (decimals : nat) : N * nat * string :=
  match s with
  | EmptyString => (n, decimals, s)
  | String a r =>
      match digit_of a with
      | Some d => read_number r dot (10 * n + d)%N (if dot then S decimals else decimals)
      | None =>
          if Ascii.eqb a (Ascii.ascii_of_nat 46) && negb dot then read_number r true n decimals
          else (n, decimals, s)
      end
  end.

(** A CSS or wkhtmltopdf length in micrometres, when it is a whole number
    of them. *)
Definition length_micrometres (s : string) : option N :=
  let '(n, decimals, unit) := read_number s false 0 0 in
  let per_unit :=
    if String.eqb unit "in" then Some 25400%N
    else if String.eqb unit "cm" then Some 10000%N
    else if String.eqb unit "mm" then Some 1000%N
    else None in
  match per_unit with
  | Some u =>
      if (n * u mod 10 ^ N.of_nat decimals =? 0)%N
      then Some (n * u / 10 ^ N.of_nat decimals)%N else None
  | None => None
  end.

(** *** Definitions for the further properties *)








Import GeneratePdfAdvanced.

(** *** Rules for the operations *)

Section rules.
Context {A : Type} (W : Env) (s : process) (Q : outcome A -> process -> Prop).

Lemma wp_iff (m : M A) :
  wp m W s Q <-> (forall r s', m W s = (r, s') -> Q r s').
Proof.
  unfold wp. split.
  - intros H r s' E. rewrite E in H. exact H.
  - intros H. apply H. destruct (m W s); reflexivity.
Qed.

Lemma wp_ret (a : A) : Q (Return a) s -> wp (mret a) W s Q.
Proof. exact id. Qed.

Lemma wp_raise (e : exn) : Q (Raise e) s -> wp (raise e) W s Q.
Proof. exact id. Qed.

Lemma wp_bind {B} (m : M B) (f : B -> M A) :
  wp m W s (fun r s1 =>
    match r with
    | Return b => wp (f b) W s1 Q
    | Raise e => Q (Raise e) s1
    end) ->
  wp (m ≫= f) W s Q.
Proof.
  unfold wp, mbind, M_bind. destruct (m W s) as [[b|e] s1]; exact id.
Qed.

Lemma wp_try_except (body : M A) cls (handler : exn -> M A) :
  wp body W s (fun r s1 =>
    match r with
    | Return a => Q (Return a) s1
    | Raise e =>
        if issubclass (exn_class e) cls then wp (handler e) W s1 Q
        else Q (Raise e) s1
    end) ->
  wp (try_except body cls handler) W s Q.
Proof.
  unfold wp, try_except. destruct (body W s) as [[a|e] s1]; cbn; [exact id|].
  destruct (issubclass _ _); exact id.
Qed.

Lemma wp_try_except_all (body handler : M A) :
  wp body W s (fun r s1 =>
    match r with
    | Return a => Q (Return a) s1
    | Raise e => wp handler W s1 Q
    end) ->
  wp (try_except_all body handler) W s Q.
Proof.
  unfold wp, try_except_all. destruct (body W s) as [[a|e] s1]; exact id.
Qed.

Lemma wp_mono (m : M A) (Q' : outcome A -> process -> Prop) :
  wp m W s Q' -> (forall r s', Q' r s' -> Q r s') -> wp m W s Q.
Proof. unfold wp. intros H HQ. apply HQ, H. Qed.
End rules.

Lemma importable_mono W s mods m :
  importable W s m -> sys_modules s ⊆ mods -> importable W (with_modules mods s) m.
Proof. intros [H|H] Hsub; [left; cbn; set_solver|right; exact H]. Qed.

Lemma wp_elim {A} (m : M A) W s Q :
  wp m W s Q -> exists r s', m W s = (r, s') /\ Q r s'.
Proof.
  unfold wp. intros H. exists (m W s).1, (m W s).2. split; [|exact H].
  destruct (m W s); reflexivity.
Qed.

Section unit_rules.
Context (W : Env) (s : process).

Lemma wp_emit ev (Q : outcome unit -> process -> Prop) :
  Q (Return ()) (logged s ev) -> wp (emit ev) W s Q.
Proof. exact id. Qed.

Lemma wp_print line (Q : outcome unit -> process -> Prop) :
  Q (Return ()) (logged s (Print line)) -> wp (print line) W s Q.
Proof. exact id. Qed.

Lemma wp_os_system cmd (Q : outcome unit -> process -> Prop) :
  Q (Return ()) (logged s (System cmd)) -> wp (os_system cmd) W s Q.
Proof. exact id. Qed.

Lemma wp_import m (Q : outcome unit -> process -> Prop) :
  (m ∈ sys_modules s -> Q (Return ()) s) ->
  (m ∉ sys_modules s -> finder W (commands (trace s)) m = None ->
   Q (Return ()) (loaded s m)) ->
  (forall e, m ∉ sys_modules s -> finder W (commands (trace s)) m = Some e ->
   Q (Raise e) s) ->
  wp (import_ m) W s Q.
Proof.
  intros H1 H2 H3. unfold wp, import_.
  destruct (decide (m ∈ sys_modules s)); [auto|].
  destruct (finder W (commands (trace s)) m) eqn:E; cbn; auto.
Qed.

Lemma wp_import_any m (Q : outcome unit -> process -> Prop) :
  (forall mods, sys_modules s ⊆ mods -> Q (Return ()) (with_modules mods s)) ->
  (forall e, m ∉ sys_modules s -> finder W (commands (trace s)) m = Some e ->
   Q (Raise e) s) ->
  wp (import_ m) W s Q.
Proof.
  intros H1 H2. apply wp_import; [intros Hin|intros Hin E|exact H2].
  - specialize (H1 (sys_modules s)). destruct s. apply H1. set_solver.
  - apply (H1 ({[m]} ∪ sys_modules s)). set_solver.
Qed.

Lemma wp_import_ok m (Q : outcome unit -> process -> Prop) :
  importable W s m ->
  (forall mods, sys_modules s ⊆ mods -> Q (Return ()) (with_modules mods s)) ->
  wp (import_ m) W s Q.
Proof.
  intros Hm H1. apply wp_import_any; [exact H1|].
  intros e Hin E. destruct Hm as [Hm|Hm]; [contradiction|congruence].
Qed.

Lemma wp_path_exists path (Q : outcome bool -> process -> Prop) :
  (forall c, files s !! path = Some c -> Q (Return true) s) ->
  (files s !! path = None -> Q (Return false) s) ->
  wp (path_exists path) W s Q.
Proof.
  intros H1 H2. unfold wp, path_exists. cbn.
  destruct (files s !! path) eqn:E.
  - rewrite bool_decide_eq_true_2 by eauto. eauto.
  - rewrite bool_decide_eq_false_2 by (intros [? ?]; discriminate). auto.
Qed.

Lemma wp_getsize path (Q : outcome N -> process -> Prop) :
  (forall c, files s !! path = Some c ->
   Q (Return (N.of_nat (String.length c))) s) ->
  (files s !! path = None -> Q (Raise (no_such_file path)) s) ->
  wp (getsize path) W s Q.
Proof.
  intros H1 H2. unfold wp, getsize. destruct (files s !! path); cbn; auto.
Qed.

Lemma wp_read_file path (Q : outcome string -> process -> Prop) :
  (forall c, files s !! path = Some c -> Q (Return c) s) ->
  (files s !! path = None -> Q (Raise (no_such_file path)) s) ->
  wp (read_file path) W s Q.
Proof.
  intros H1 H2. unfold wp, read_file. destruct (files s !! path); cbn; auto.
Qed.

Lemma wp_convert ev output r (Q : outcome unit -> process -> Prop) :
  (forall e, r W s = inl e -> Q (Raise e) (logged s ev)) ->
  (forall bytes, r W s = inr bytes ->
   Q (Return ()) (written (logged s ev) output bytes)) ->
  wp (convert ev output r) W s Q.
Proof.
  intros H1 H2. unfold wp, convert. destruct (r W s); cbn; auto.
Qed.

Lemma wp_library_call r (Q : outcome unit -> process -> Prop) :
  (r W = None -> Q (Return ()) s) ->
  (forall e, r W = Some e -> Q (Raise e) s) ->
  wp (library_call r) W s Q.
Proof.
  intros H1 H2. unfold wp, library_call. destruct (r W); cbn; auto.
Qed.

Lemma wp_library_value {A} (r : Env -> exn + A) (Q : outcome A -> process -> Prop) :
  (forall a, r W = inr a -> Q (Return a) s) ->
  (forall e, r W = inl e -> Q (Raise e) s) ->
  wp (library_value r) W s Q.
Proof.
  intros H1 H2. unfold wp, library_value. destruct (r W); cbn; auto.
Qed.
End unit_rules.


(** *** The story building leaves the process alone *)

Lemma stateless_ret {A} (a : A) : stateless (mret a : M A).
Proof. intros W s s0. reflexivity. Qed.

Lemma stateless_bind {A B} (m : M A) (f : A -> M B) :
  stateless m -> (forall a, stateless (f a)) -> stateless (m ≫= f).
Proof.
  intros Hm Hf W s s0. unfold mbind, M_bind.
  rewrite (Hm W s s0). rewrite (Hm W s0 s0) at 2.
  destruct (m W s0).1 as [a|e]; [|reflexivity].
  apply Hf.
Qed.

Lemma stateless_new_Paragraph t st : stateless (new_Paragraph t st).
Proof.
  intros W s s0. unfold new_Paragraph.
  destruct (reportlab_Paragraph W t st); reflexivity.
Qed.

Lemma stateless_for_each {A S} (xs : list A) (body : S -> A -> M S) acc :
  (forall acc x, stateless (body acc x)) -> stateless (for_each xs body acc).
Proof.
  intros Hbody. revert acc. induction xs as [|x xs IH]; intros acc; cbn.
  - apply stateless_ret.
  - apply stateless_bind; [apply Hbody|exact IH].
Qed.

Lemma stateless_detail_row_step story detail_row :
  stateless (detail_row_step story detail_row).
Proof.
  unfold detail_row_step.
  destruct (find "div" (Some "detail-label") detail_row),
    (find "div" (Some "detail-content") detail_row);
    try apply stateless_ret.
  apply stateless_bind; [apply stateless_new_Paragraph|intros; apply stateless_ret].
Qed.

Lemma stateless_business_idea_step story business_idea :
  stateless (business_idea_step story business_idea).
Proof.
  unfold business_idea_step. apply stateless_bind.
  - destruct (find "h3" None business_idea); [|apply stateless_ret].
    apply stateless_bind; [apply stateless_new_Paragraph|intros; apply stateless_ret].
  - intros st. apply stateless_bind; [|intros; apply stateless_ret].
    apply stateless_for_each. intros. apply stateless_detail_row_step.
Qed.

Lemma stateless_build_story soup : stateless (build_story soup).
Proof.
  unfold build_story.
  apply stateless_bind; [apply stateless_new_Paragraph|intros p].
  apply stateless_for_each. intros. apply stateless_business_idea_step.
Qed.

(** A run of [build_story] is its result and the process it started in. *)
Lemma build_story_run soup W s :
  build_story soup W s = (story_result W soup, s).
Proof. apply stateless_build_story. Qed.

Lemma wp_build_story soup W s (Q : outcome (list flowable) -> process -> Prop) :
  (forall story, story_result W soup = Return story -> Q (Return story) s) ->
  (forall e, story_result W soup = Raise e -> Q (Raise e) s) ->
  wp (build_story soup) W s Q.
Proof.
  intros H1 H2. unfold wp. rewrite build_story_run. cbn.
  destruct (story_result W soup); auto.
Qed.

Lemma ends_with_nil s : ends_with s [].
Proof. exists (trace s). symmetry. apply app_nil_r. Qed.

Lemma ends_with_snoc s ev evs :
  ends_with s evs -> ends_with (logged s ev) (evs ++ [ev]).
Proof.
  intros [tr E]. exists tr. cbn. rewrite E. symmetry. apply app_assoc.
Qed.

(** Reads the last events off a process written as a chain of [logged]. *)
Ltac ends_with_logged :=
  repeat first
    [ apply ends_with_nil
    | match goal with
      | |- ends_with (logged ?s ?ev) ?l =>
          apply (ends_with_snoc s ev (removelast l))
      end ].

Lemma wp_returns_bool {W s} {m : M pyvalue} :
  wp m W s (fun r _ => exists b, r = Return (PyBool b)) ->
  exists b s', m W s = (Return (PyBool b), s').
Proof.
  intros H. apply wp_elim in H as (r & s' & E & b & ->). eauto.
Qed.

Lemma wp_result {W s} {m : M pyvalue} {v} {P : process -> Prop} :
  wp m W s (fun r s' => r = Return v /\ P s') ->
  exists s', m W s = (Return v, s') /\ P s'.
Proof.
  intros H. apply wp_elim in H as (r & s' & E & -> & HP). eauto.
Qed.

Lemma commands_system tr cmd :
  commands (tr ++ [System cmd]) = commands tr ++ [cmd].
Proof. unfold commands. rewrite omap_app. reflexivity. Qed.

Lemma commands_print tr line : commands (tr ++ [Print line]) = commands tr.
Proof. unfold commands. rewrite omap_app. cbn. apply app_nil_r. Qed.

(** Brings together what the branches of a run say about the same oracle
    or the same file. *)
Ltac simplify_run :=
  cbn [files trace sys_modules logged loaded written with_modules] in *;
  repeat match goal with
  | H : negb _ = _ |- _ => cbn in H; try discriminate H; clear H
  | H : context [commands (_ ++ [System _])] |- _ =>
      rewrite commands_system in H
  | H : context [commands (_ ++ [Print _])] |- _ =>
      rewrite commands_print in H
  | H : <[?k := _]> _ !! ?k = _ |- _ => rewrite lookup_insert_eq in H
  | H : Some ?a = Some ?b |- _ =>
      apply (inj Some) in H; first [subst a | subst b | idtac]
  | H : inl ?a = inl ?b |- _ =>
      apply (inj inl) in H; first [subst a | subst b | idtac]
  | H : inr ?a = inr ?b |- _ =>
      apply (inj inr) in H; first [subst a | subst b | idtac]
  | H : Return ?a = Return ?b |- _ =>
      injection H as H; first [subst a | subst b | idtac]
  | H : Raise ?a = Raise ?b |- _ =>
      injection H as H; first [subst a | subst b | idtac]
  | H1 : ?o = _, H2 : ?o = _ |- _ =>
      lazymatch o with
      | context [finder] => idtac
      | context [pdfkit_from_file] => idtac
      | context [weasyprint_CSS] => idtac
      | context [weasyprint_write_pdf] => idtac
      | context [BeautifulSoup] => idtac
      | context [reportlab_build] => idtac
      | context [story_result] => idtac
      | context [files] => idtac
      end;
      rewrite H1 in H2
  end.

(** Closes the branches of a run that the hypotheses exclude. *)
Ltac impossible :=
  simplify_run;
  solve [ match goal with
          | H : is_Some None |- _ => destruct H; discriminate
          | H : is_Some ?o, E : ?o = None |- _ =>
              rewrite E in H; destruct H; discriminate
          | H : _ = _ |- _ => discriminate H
          | H : ?x ∈ ?X, H' : ?x ∉ ?X |- _ => exact (False_rect _ (H' H))
          end ].

(** The rule for [import]: with the modules that get loaded left
    abstract, or with the three cases of [sys.modules] and the finder. *)
Ltac wp_import_coarse :=
  first [ apply wp_import_ok; [solve [eauto 10 using importable_mono]|intros ? ?]
        | apply wp_import_any; [intros ? ?|intros ? ? ?] ].

Ltac wp_import_precise :=
  apply wp_import; [intros ?|intros ? ?|intros ? ? ?].

(** One step of symbolic execution of a script. *)
Ltac wp_step_gen import_rule :=
  lazymatch goal with
  | |- wp (mret _) _ _ _ => apply wp_ret
  | |- wp (mbind _ _) _ _ _ => apply wp_bind
  | |- wp (try_except _ _ _) _ _ _ => apply wp_try_except
  | |- wp (try_except_all _ _) _ _ _ => apply wp_try_except_all
  | |- wp (print _) _ _ _ => apply wp_print
  | |- wp (os_system _) _ _ _ => apply wp_os_system
  | |- wp (emit _) _ _ _ => apply wp_emit
  | |- wp (import_ _) _ _ _ => import_rule
  | |- if issubclass _ Exception then _ else _ => cbn [issubclass]
  | |- if issubclass _ _ then _ else _ =>
      simplify_run;
      lazymatch goal with
      | H : issubclass ?c ?d = _ |- if issubclass ?c ?d then _ else _ => rewrite H
      end
  | |- wp (path_exists _) _ _ _ => apply wp_path_exists; [intros ? ?|intros ?]
  | |- wp (getsize _) _ _ _ => apply wp_getsize; [intros ? ?|intros ?]
  | |- wp (read_file _) _ _ _ => apply wp_read_file; [intros ? ?|intros ?]
  | |- wp (convert _ _ _) _ _ _ => apply wp_convert; [intros ? ?|intros ? ?]
  | |- wp (library_call _) _ _ _ => apply wp_library_call; [intros ?|intros ? ?]
  | |- wp (library_value _) _ _ _ => apply wp_library_value; [intros ? ?|intros ? ?]
  | |- wp (build_story _) _ _ _ => apply wp_build_story; [intros ? ?|intros ? ?]
  | |- wp (if ?b then _ else _) _ _ _ => destruct b eqn:?
  end; cbv beta iota; cbn [negb truthy].

Ltac wp_step := wp_step_gen wp_import_coarse.
Ltac wp_run := repeat wp_step.
Ltac wp_run_precise := repeat (wp_step_gen wp_import_precise).

Lemma generate_pdf_returns W s :
  wp GeneratePdf.generate_pdf W s (fun r _ => exists b, r = Return (PyBool b)).
Proof. unfold GeneratePdf.generate_pdf. wp_run; eauto. Qed.

Lemma generate_pdf_weasyprint_returns W s :
  wp generate_pdf_weasyprint W s (fun r _ => exists b, r = Return (PyBool b)).
Proof. unfold generate_pdf_weasyprint. wp_run; eauto. Qed.

Lemma generate_pdf_alternative_returns W s :
  wp generate_pdf_alternative W s (fun r _ => exists b, r = Return (PyBool b)).
Proof. unfold generate_pdf_alternative. wp_run; eauto. Qed.

Ltac split_importable :=
  unfold weasyprint_modules, alternative_modules in *;
  repeat match goal with
  | H : Forall _ (_ :: _) |- _ => apply Forall_cons_1 in H as [? H]
  | H : Forall _ [] |- _ => clear H
  end.


(** *** Sequencing *)

Lemma bind_return {A B} (m : M A) (f : A -> M B) W s a s1 :
  m W s = (Return a, s1) -> (m ≫= f) W s = f a W s1.
Proof. intros E. unfold mbind, M_bind. rewrite E. reflexivity. Qed.

Lemma bind_raise {A B} (m : M A) (f : A -> M B) W s e s1 :
  m W s = (Raise e, s1) -> (m ≫= f) W s = (Raise e, s1).
Proof. intros E. unfold mbind, M_bind. rewrite E. reflexivity. Qed.

Lemma try_except_all_return {A} (body handler : M A) W s a s1 :
  body W s = (Return a, s1) -> try_except_all body handler W s = (Return a, s1).
Proof. intros E. unfold try_except_all. rewrite E. reflexivity. Qed.

Lemma wp_eq {A} (m : M A) W s r s' Q :
  m W s = (r, s') -> wp m W s Q -> Q r s'.
Proof. intros E H. unfold wp in H. rewrite E in H. exact H. Qed.

Lemma wp_equation {A} (m : M A) W s p :
  wp m W s (fun r s' => (r, s') = p) -> m W s = p.
Proof. unfold wp. destruct (m W s). exact id. Qed.

Lemma wp_equation_ex {A B} (m : M A) W s (p : B -> outcome A * process) :
  wp m W s (fun r s' => exists x, (r, s') = p x) -> exists x, m W s = p x.
Proof. unfold wp. destruct (m W s). exact id. Qed.

Lemma wp_equation_such {A B} (m : M A) W s (P : B -> Prop)
    (p : B -> outcome A * process) :
  wp m W s (fun r s' => exists x, P x /\ (r, s') = p x) ->
  exists x, P x /\ m W s = p x.
Proof. unfold wp. destruct (m W s). exact id. Qed.

(** *** Traces that grow *)

Lemma extends_refl s : extends s [] s.
Proof. unfold extends. symmetry. apply app_nil_r. Qed.

Lemma extends_logged s evs s1 ev :
  extends s evs s1 -> extends s (evs ++ [ev]) (logged s1 ev).
Proof. unfold extends. cbn. intros ->. symmetry. apply app_assoc. Qed.

Lemma extends_with_modules s evs s1 mods :
  extends s evs s1 -> extends s evs (with_modules mods s1).
Proof. exact id. Qed.

Lemma extends_loaded s evs s1 m :
  extends s evs s1 -> extends s evs (loaded s1 m).
Proof. exact id. Qed.

Lemma extends_written s evs s1 path bytes :
  extends s evs s1 -> extends s evs (written s1 path bytes).
Proof. exact id. Qed.

Lemma extends_trans s evs1 s1 evs2 s2 :
  extends s evs1 s1 -> extends s1 evs2 s2 -> extends s (evs1 ++ evs2) s2.
Proof. unfold extends. intros E1 ->. rewrite E1. symmetry. apply app_assoc. Qed.

(** Reads the new events off a process written as a chain of steps from
    [s]. *)
Ltac extends_steps :=
  repeat first
    [ apply extends_refl
    | apply extends_logged
    | apply extends_with_modules
    | apply extends_loaded
    | apply extends_written ].

(** The new events of a run, each checked by computation. *)
Ltac new_events :=
  eexists; split; [extends_steps|];
  cbn [app]; repeat constructor.
(** C4. Whatever exception a backend raises during a conversion attempt,
    the attempt catches it, prints a message that carries the text of the
    exception, and returns [False]: nothing propagates to the caller of
    [generate_pdf], [generate_pdf_weasyprint] or [generate_pdf_alternative],
    which return a boolean in every run. *)
Theorem backend_exceptions_are_caught W s :
  (exists b s', GeneratePdf.generate_pdf W s = (Return (PyBool b), s')) /\
  (exists b s', generate_pdf_weasyprint W s = (Return (PyBool b), s')) /\
  (exists b s', generate_pdf_alternative W s = (Return (PyBool b), s')) /\
  (forall e,
     is_Some (files s !! GeneratePdf.html_file) ->
     pdfkit_from_file W (files s) GeneratePdf.html_file GeneratePdf.options = inl e ->
     exists s', GeneratePdf.generate_pdf W s = (Return (PyBool false), s') /\
       ends_with s'
         [Print ("❌ Error generating PDF: " +:+ exn_msg e);
          Print (nl +:+ "💡 Note: This script requires wkhtmltopdf to be installed.");
          Print "Install it with: sudo apt-get install wkhtmltopdf"]) /\
  (forall e,
     Forall (importable W s) weasyprint_modules ->
     is_Some (files s !! html_file) ->
     weasyprint_CSS W pdf_css = Some e \/
     weasyprint_CSS W pdf_css = None /\
     weasyprint_write_pdf W (files s) html_file [pdf_css] = inl e ->
     exists s', generate_pdf_weasyprint W s = (Return (PyBool false), s') /\
       ends_with s' [Print ("❌ Error generating PDF with WeasyPrint: " +:+ exn_msg e)]) /\
  (forall e c,
     Forall (importable W s) alternative_modules ->
     files s !! html_file = Some c ->
     BeautifulSoup W c = inl e \/
     (exists soup, BeautifulSoup W c = inr soup /\
        (story_result W soup = Raise e \/
         exists story, story_result W soup = Return story /\
           reportlab_build W "A4" story = inl e)) ->
     exists s', generate_pdf_alternative W s = (Return (PyBool false), s') /\
       ends_with s' [Print ("❌ Error with alternative method: " +:+ exn_msg e)]).
Proof.
  split; [exact (wp_returns_bool (generate_pdf_returns W s))|].
  split; [exact (wp_returns_bool (generate_pdf_weasyprint_returns W s))|].
  split; [exact (wp_returns_bool (generate_pdf_alternative_returns W s))|].
  split; [|split].
  - intros e Hin He. apply wp_result.
    unfold GeneratePdf.generate_pdf. wp_run; try impossible.
    simplify_run. split; [reflexivity|ends_with_logged].
  - intros e Hmods Hin He. split_importable. apply wp_result.
    unfold generate_pdf_weasyprint. wp_run; try impossible.
    all: destruct He as [He|[He1 He2]]; try impossible.
    all: simplify_run; split; [reflexivity|ends_with_logged].
  - intros e c Hmods Hin He. split_importable. apply wp_result.
    unfold generate_pdf_alternative. wp_run; try impossible.
    all: destruct He as [He|(soup & He1 & [He2|(story' & He2 & He3)])];
      try impossible.
    all: simplify_run; try impossible.
    all: simplify_run; split; [reflexivity|ends_with_logged].
Qed.

(** The case of C4 exists: with wkhtmltopdf missing, [pdfkit.from_file]
    raises and [generate_pdf] answers [False] after the message. *)
Lemma backend_exceptions_are_caught_witness :
  exists s',
    GeneratePdf.generate_pdf env_failing with_input = (Return (PyBool false), s') /\
    ends_with s'
      [Print "❌ Error generating PDF: No wkhtmltopdf executable found";
       Print (nl +:+ "💡 Note: This script requires wkhtmltopdf to be installed.");
       Print "Install it with: sudo apt-get install wkhtmltopdf"].
Proof.
  destruct (backend_exceptions_are_caught env_failing with_input)
    as (_ & _ & _ & H & _).
  apply (H (Exn OSError "No wkhtmltopdf executable found")).
  - eexists. reflexivity.
  - reflexivity.
Defined.

(** ** The fallback sequencer *)

Lemma install_weasyprint_trace W s :
  wp install_weasyprint W s (fun _ s' =>
    files s' = files s /\
    exists evs, extends s evs s' /\ Forall (fun ev => fallback_event ev = false) evs).
Proof.
  unfold install_weasyprint. wp_run.
  all: try (destruct (issubclass _ ImportError) eqn:?; wp_run).
  all: split; [reflexivity|new_events].
Qed.

Lemma generate_pdf_weasyprint_trace W s :
  wp generate_pdf_weasyprint W s (fun _ s' =>
    exists evs, extends s evs s' /\ Forall (fun ev => fallback_event ev = false) evs).
Proof. unfold generate_pdf_weasyprint. wp_run; new_events. Qed.

(** A failed attempt leaves the files as they were. *)
Lemma generate_pdf_weasyprint_failure W s :
  wp generate_pdf_weasyprint W s (fun r s' =>
    r = Return (PyBool false) -> files s' = files s).
Proof.
  unfold generate_pdf_weasyprint. wp_run; intros E; try reflexivity.
  all: try impossible.
Qed.

Lemma generate_pdf_alternative_failure W s :
  wp generate_pdf_alternative W s (fun r s' =>
    r = Return (PyBool false) -> files s' = files s).
Proof.
  unfold generate_pdf_alternative. wp_run; intros E; try reflexivity.
  all: try impossible.
Qed.

(** Every run of [generate_pdf_alternative] leaves an event that only the
    fallback leaves: a trace without such an event has no call of it. *)
Lemma generate_pdf_alternative_leaves_a_mark W s :
  wp generate_pdf_alternative W s (fun _ s' =>
    exists evs, extends s evs s' /\ Exists (fun ev => fallback_event ev = true) evs).
Proof.
  unfold generate_pdf_alternative. wp_run.
  all: eexists; split; [extends_steps|]; cbn [app].
  all: first [ apply Exists_cons_hd; reflexivity
             | apply Exists_cons_tl, Exists_cons_hd; reflexivity ].
Qed.

(** C1. When the WeasyPrint attempt succeeds, [main] prints its completion
    line and returns at once: the run consists of the banner, the
    availability check, the WeasyPrint attempt and that line, and none of
    its events is one the fallback leaves (the installation of reportlab and
    BeautifulSoup, a line of [generate_pdf_alternative], a reportlab
    build). *)
Theorem main_returns_after_primary_success W s s1 s2 :
  install_weasyprint W (exec main_banner W s) = (Return (PyBool true), s1) ->
  generate_pdf_weasyprint W s1 = (Return (PyBool true), s2) ->
  let s' :=
    logged s2
      (Print (nl +:+ "🎉 PDF generation completed successfully with WeasyPrint!")) in
  main W s = (Return PyNone, s') /\
  exists evs, extends s evs s' /\ Forall (fun ev => fallback_event ev = false) evs.
Proof.
  intros H1 H2 s'. split.
  - unfold main.
    change (exec main_banner W s)
      with (logged (logged s (Print "🚀 Business Ideas PDF Generator"))
              (Print (str_repeat "=" 50))) in H1.
    do 2 (erewrite bind_return by reflexivity).
    rewrite (bind_return _ _ _ _ _ _ H1). cbn [truthy].
    rewrite (bind_return _ _ _ _ _ _ H2). cbn [truthy].
    reflexivity.
  - pose proof (wp_eq _ _ _ _ _ _ H1 (install_weasyprint_trace W _)) as (_ & evs1 & E1 & F1).
    pose proof (wp_eq _ _ _ _ _ _ H2 (generate_pdf_weasyprint_trace W _)) as (evs2 & E2 & F2).
    exists (([Print "🚀 Business Ideas PDF Generator"; Print (str_repeat "=" 50)]
               ++ evs1) ++ evs2 ++ [Print (nl +:+ "🎉 PDF generation completed successfully with WeasyPrint!")]).
    split.
    + unfold s'. eapply extends_trans; [|eapply extends_trans; [exact E2|]].
      * eapply extends_trans; [|exact E1].
        apply (extends_logged s [Print "🚀 Business Ideas PDF Generator"]).
        apply (extends_logged s []), extends_refl.
      * unfold extends. reflexivity.
    + repeat (apply Forall_app; split); auto; repeat constructor.
Qed.

(** The run of C1 exists: with every library installed and the input in
    place, WeasyPrint succeeds and [main] stops there. *)
Lemma main_returns_after_primary_success_witness :
  main env_ok with_input
  = (Return PyNone,
     logged (exec generate_pdf_weasyprint env_ok
               (exec install_weasyprint env_ok (exec main_banner env_ok with_input)))
       (Print (nl +:+ "🎉 PDF generation completed successfully with WeasyPrint!"))).
Proof.
  apply (main_returns_after_primary_success env_ok with_input
           (exec install_weasyprint env_ok (exec main_banner env_ok with_input))
           (exec generate_pdf_weasyprint env_ok
              (exec install_weasyprint env_ok (exec main_banner env_ok with_input))));
    vm_compute; reflexivity.
Defined.

(** C3. When the availability check has returned and every attempt made
    after it has failed (the WeasyPrint attempt if the check allowed it, and
    the reportlab attempt), [main] prints the manual instructions and
    returns normally, and the files are the ones it started with. *)
Theorem main_all_failed W s b s1 s2 s3 :
  install_weasyprint W (exec main_banner W s) = (Return (PyBool b), s1) ->
  (if b then generate_pdf_weasyprint W s1 else (Return (PyBool false), s1))
  = (Return (PyBool false), s2) ->
  generate_pdf_alternative W (exec alternative_prelude W s2)
  = (Return (PyBool false), s3) ->
  main W s = (Return PyNone, exec manual_instructions W s3) /\
  ends_with (exec manual_instructions W s3)
    [Print (nl +:+ "⚠️  Automatic PDF generation failed.");
     Print (nl +:+ "📋 Manual Instructions:");
     Print "1. Open the file: /home/mosaajii/Documents/MH-POS/business-ideas-africa.html";
     Print "2. Open it in your web browser (Chrome, Firefox, etc.)";
     Print "3. Use Ctrl+P to print";
     Print "4. Select 'Save as PDF' as the destination";
     Print "5. Save as 'Top-20-Business-Ideas-Kenya-Africa.pdf'"] /\
  files (exec manual_instructions W s3) = files s.
Proof.
  intros H1 H2 H3.
  assert (Halt : try_alternative W s2 = (Return PyNone, exec manual_instructions W s3)).
  { unfold try_alternative.
    erewrite bind_return by reflexivity.
    erewrite bind_return; cycle 1.
    { apply try_except_all_return.
      erewrite bind_return by reflexivity.
      change (logged (logged s2 _) _) with (exec alternative_prelude W s2).
      rewrite (bind_return _ _ _ _ _ _ H3). cbn [truthy]. reflexivity. }
    reflexivity. }
  split; [|split].
  - unfold main.
    change (exec main_banner W s)
      with (logged (logged s (Print "🚀 Business Ideas PDF Generator"))
              (Print (str_repeat "=" 50))) in H1.
    do 2 (erewrite bind_return by reflexivity).
    rewrite (bind_return _ _ _ _ _ _ H1). cbn [truthy].
    destruct b.
    + rewrite (bind_return _ _ _ _ _ _ H2). cbn [truthy]. exact Halt.
    + injection H2 as ->. exact Halt.
  - change (exec manual_instructions W s3)
      with (logged (logged (logged (logged (logged (logged (logged s3
              (Print (nl +:+ "⚠️  Automatic PDF generation failed.")))
              (Print (nl +:+ "📋 Manual Instructions:")))
              (Print "1. Open the file: /home/mosaajii/Documents/MH-POS/business-ideas-africa.html"))
              (Print "2. Open it in your web browser (Chrome, Firefox, etc.)"))
              (Print "3. Use Ctrl+P to print"))
              (Print "4. Select 'Save as PDF' as the destination"))
              (Print "5. Save as 'Top-20-Business-Ideas-Kenya-Africa.pdf'")).
    ends_with_logged.
  - change (files (exec manual_instructions W s3)) with (files s3).
    rewrite (wp_eq _ _ _ _ _ _ H3 (generate_pdf_alternative_failure W _) eq_refl).
    change (files (exec alternative_prelude W s2)) with (files s2).
    pose proof (wp_eq _ _ _ _ _ _ H1 (install_weasyprint_trace W _)) as [F1 _].
    change (files (exec main_banner W s)) with (files s) in F1.
    destruct b.
    + rewrite (wp_eq _ _ _ _ _ _ H2 (generate_pdf_weasyprint_failure W _) eq_refl).
      exact F1.
    + injection H2 as ->. exact F1.
Qed.

(** The run of C3 exists: without the input document, with every library
    installed, both attempts fail and [main] ends on the instructions. *)
Lemma main_all_failed_witness :
  let s1 := exec install_weasyprint env_ok (exec main_banner env_ok without_input) in
  let s2 := exec generate_pdf_weasyprint env_ok s1 in
  let s3 := exec generate_pdf_alternative env_ok (exec alternative_prelude env_ok s2) in
  main env_ok without_input = (Return PyNone, exec manual_instructions env_ok s3) /\
  files (exec manual_instructions env_ok s3) = files without_input.
Proof.
  intros s1 s2 s3.
  destruct (main_all_failed env_ok without_input true s1 s2 s3) as (E & _ & F);
    [vm_compute; reflexivity..|].
  split; [exact E|exact F].
Defined.

(** ** A missing input document *)

(** C2, as stated, fails: without the reportlab modules the attempt of
    [generate_pdf_alternative] on a missing input stops at its first import
    and reports that import error, not the missing input. *)
Lemma missing_input_not_always_reported :
  files without_input !! html_file = None /\
  generate_pdf_alternative env_none without_input
  = (Return (PyBool false),
     logged without_input
       (Print "❌ Error with alternative method: No module named 'reportlab'")) /\
  existsb missing_input_report
    (trace (exec generate_pdf_alternative env_none without_input)) = false.
Proof. vm_compute. repeat split. Qed.

Lemma no_conversion_without_input_weasyprint W s :
  files s !! html_file = None ->
  wp generate_pdf_weasyprint W s (fun r s' =>
    r = Return (PyBool false) /\ files s' = files s /\
    exists evs, extends s evs s' /\ Forall (fun ev => conversion_call ev = false) evs).
Proof.
  intros Hno. unfold generate_pdf_weasyprint. wp_run; try impossible.
  all: split; [reflexivity|split; [reflexivity|new_events]].
Qed.

Lemma no_conversion_without_input_alternative W s :
  files s !! html_file = None ->
  wp generate_pdf_alternative W s (fun r s' =>
    r = Return (PyBool false) /\ files s' = files s /\
    exists evs, extends s evs s' /\ Forall (fun ev => conversion_call ev = false) evs).
Proof.
  intros Hno. unfold generate_pdf_alternative. wp_run; try impossible.
  all: split; [reflexivity|split; [reflexivity|new_events]].
Qed.

(** Closes a leaf of a run on a missing input: the missing-input report,
    or the report of the import that failed. *)
Ltac report_leaf :=
  first
    [ left; eexists; reflexivity
    | right; do 3 eexists; split; [|split; [eassumption|reflexivity]];
      cbn; auto 10 ].

Lemma import_error_or_missing_input_weasyprint W s :
  files s !! html_file = None ->
  (exists mods,
     generate_pdf_weasyprint W s
     = (Return (PyBool false),
        logged (with_modules mods s)
          (Print ("Error: HTML file not found at " +:+ html_file)))) \/
  (exists m e mods,
     In m weasyprint_modules /\
     finder W (commands (trace s)) m = Some e /\
     generate_pdf_weasyprint W s
     = (Return (PyBool false),
        logged (with_modules mods s)
          (Print ("❌ Error generating PDF with WeasyPrint: " +:+ exn_msg e)))).
Proof.
  intros Hno.
  enough (wp generate_pdf_weasyprint W s (fun r s' =>
    (exists mods,
       (r, s') = (Return (PyBool false),
          logged (with_modules mods s)
            (Print ("Error: HTML file not found at " +:+ html_file)))) \/
    (exists m e mods,
       In m weasyprint_modules /\
       finder W (commands (trace s)) m = Some e /\
       (r, s') = (Return (PyBool false),
          logged (with_modules mods s)
            (Print ("❌ Error generating PDF with WeasyPrint: " +:+ exn_msg e)))))) as H.
  { unfold wp in H. destruct (generate_pdf_weasyprint W s). exact H. }
  unfold generate_pdf_weasyprint. wp_run; try impossible.
  all: report_leaf.
Qed.

Lemma import_error_or_missing_input_alternative W s :
  files s !! html_file = None ->
  (exists mods,
     generate_pdf_alternative W s
     = (Return (PyBool false),
        logged
          (logged (with_modules mods s) (Print "Using ReportLab alternative method..."))
          (Print ("❌ Error with alternative method: "
                  +:+ exn_msg (no_such_file html_file))))) \/
  (exists m e mods,
     In m alternative_modules /\
     finder W (commands (trace s)) m = Some e /\
     generate_pdf_alternative W s
     = (Return (PyBool false),
        logged (with_modules mods s)
          (Print ("❌ Error with alternative method: " +:+ exn_msg e)))).
Proof.
  intros Hno.
  enough (wp generate_pdf_alternative W s (fun r s' =>
    (exists mods,
       (r, s') = (Return (PyBool false),
          logged
            (logged (with_modules mods s) (Print "Using ReportLab alternative method..."))
            (Print ("❌ Error with alternative method: "
                    +:+ exn_msg (no_such_file html_file))))) \/
    (exists m e mods,
       In m alternative_modules /\
       finder W (commands (trace s)) m = Some e /\
       (r, s') = (Return (PyBool false),
          logged (with_modules mods s)
            (Print ("❌ Error with alternative method: " +:+ exn_msg e)))))) as H.
  { unfold wp in H. destruct (generate_pdf_alternative W s). exact H. }
  unfold generate_pdf_alternative. wp_run; try impossible.
  all: report_leaf.
Qed.

(** C2, amended. When the input document does not exist: [generate_pdf]
    prints the missing-input message and returns [False] without calling
    pdfkit; so does [generate_pdf_weasyprint] when its imports succeed;
    [generate_pdf_alternative], when its imports succeed, reports the
    [FileNotFoundError] of [open] and returns [False]. An attempt of the
    advanced script that does not report the missing input reports instead
    the exception that the import of one of its modules raised. Whether the
    imports succeed or not, the two attempts of the advanced script return
    [False], call no conversion routine and leave the files as they were. *)
Theorem missing_input_is_reported W s :
  files s !! html_file = None ->
  GeneratePdf.generate_pdf W s
  = (Return (PyBool false),
     logged s (Print ("Error: HTML file not found at " +:+ html_file))) /\
  (Forall (importable W s) weasyprint_modules ->
   exists mods,
     generate_pdf_weasyprint W s
     = (Return (PyBool false),
        logged (with_modules mods s)
          (Print ("Error: HTML file not found at " +:+ html_file)))) /\
  (Forall (importable W s) alternative_modules ->
   exists mods,
     generate_pdf_alternative W s
     = (Return (PyBool false),
        logged
          (logged (with_modules mods s) (Print "Using ReportLab alternative method..."))
          (Print ("❌ Error with alternative method: "
                  +:+ exn_msg (no_such_file html_file))))) /\
  ((exists mods,
      generate_pdf_weasyprint W s
      = (Return (PyBool false),
         logged (with_modules mods s)
           (Print ("Error: HTML file not found at " +:+ html_file)))) \/
   (exists m e mods,
      In m weasyprint_modules /\
      finder W (commands (trace s)) m = Some e /\
      generate_pdf_weasyprint W s
      = (Return (PyBool false),
         logged (with_modules mods s)
           (Print ("❌ Error generating PDF with WeasyPrint: " +:+ exn_msg e))))) /\
  ((exists mods,
      generate_pdf_alternative W s
      = (Return (PyBool false),
         logged
           (logged (with_modules mods s) (Print "Using ReportLab alternative method..."))
           (Print ("❌ Error with alternative method: "
                   +:+ exn_msg (no_such_file html_file))))) \/
   (exists m e mods,
      In m alternative_modules /\
      finder W (commands (trace s)) m = Some e /\
      generate_pdf_alternative W s
      = (Return (PyBool false),
         logged (with_modules mods s)
           (Print ("❌ Error with alternative method: " +:+ exn_msg e))))) /\
  (exists s' evs,
     generate_pdf_weasyprint W s = (Return (PyBool false), s') /\
     files s' = files s /\ extends s evs s' /\
     Forall (fun ev => conversion_call ev = false) evs) /\
  (exists s' evs,
     generate_pdf_alternative W s = (Return (PyBool false), s') /\
     files s' = files s /\ extends s evs s' /\
     Forall (fun ev => conversion_call ev = false) evs).
Proof.
  intros Hno. repeat split.
  - change html_file with GeneratePdf.html_file in Hno.
    apply wp_equation.
    unfold GeneratePdf.generate_pdf. wp_run; try impossible. reflexivity.
  - intros Hmods. split_importable.
    apply (wp_equation_ex _ _ _ (fun mods => (_, logged (with_modules mods s) _))).
    unfold generate_pdf_weasyprint. wp_run; try impossible.
    eexists. reflexivity.
  - intros Hmods. split_importable.
    apply (wp_equation_ex _ _ _
             (fun mods => (_, logged (logged (with_modules mods s) _) _))).
    unfold generate_pdf_alternative. wp_run; try impossible.
    eexists. reflexivity.
  - apply (import_error_or_missing_input_weasyprint W s Hno).
  - apply (import_error_or_missing_input_alternative W s Hno).
  - destruct (wp_elim _ _ _ _ (no_conversion_without_input_weasyprint W s Hno))
      as (r & s' & E & -> & F & evs & HE & HF). eauto 10.
  - destruct (wp_elim _ _ _ _ (no_conversion_without_input_alternative W s Hno))
      as (r & s' & E & -> & F & evs & HE & HF). eauto 10.
Qed.

(** The case of C2 exists: a process without the input document, in an
    environment with every library installed. *)
Lemma missing_input_is_reported_witness :
  GeneratePdf.generate_pdf env_ok without_input
  = (Return (PyBool false),
     logged without_input (Print ("Error: HTML file not found at " +:+ html_file))).
Proof.
  apply (missing_input_is_reported env_ok without_input). reflexivity.
Defined.

(** ** What a successful conversion leaves *)

(** C7, as stated, fails: the two backends of the advanced script write to
    two different paths, and the reportlab attempt reports no file size. *)
Lemma output_path_and_size_report_differ :
  (generate_pdf_weasyprint env_ok with_input).1 = Return (PyBool true) /\
  files (exec generate_pdf_weasyprint env_ok with_input) !! weasyprint_pdf_file
  = Some "%PDF-1.7 weasyprint" /\
  files (exec generate_pdf_weasyprint env_ok with_input) !! alternative_pdf_file
  = None /\
  (generate_pdf_alternative env_ok with_input).1 = Return (PyBool true) /\
  files (exec generate_pdf_alternative env_ok with_input) !! alternative_pdf_file
  = Some "%PDF-1.3 reportlab" /\
  files (exec generate_pdf_alternative env_ok with_input) !! weasyprint_pdf_file
  = None /\
  existsb size_report (trace (exec generate_pdf_alternative env_ok with_input))
  = false.
Proof. vm_compute. repeat split. Qed.

Lemma generate_pdf_success W s :
  wp GeneratePdf.generate_pdf W s (fun r s' =>
    r = Return (PyBool true) ->
    exists bytes,
      files s' = <[GeneratePdf.pdf_file := bytes]> (files s) /\
      ends_with s'
        [Print ("📄 File size: "
                +:+ format_mb (N.of_nat (String.length bytes)) +:+ " MB")]).
Proof.
  unfold GeneratePdf.generate_pdf. wp_run; intros E; try impossible.
  simplify_run. eexists. split; [reflexivity|ends_with_logged].
Qed.

Lemma generate_pdf_weasyprint_success W s :
  wp generate_pdf_weasyprint W s (fun r s' =>
    r = Return (PyBool true) ->
    exists bytes,
      files s' = <[weasyprint_pdf_file := bytes]> (files s) /\
      ends_with s'
        [Print ("📄 File size: "
                +:+ format_mb (N.of_nat (String.length bytes)) +:+ " MB")]).
Proof.
  unfold generate_pdf_weasyprint. wp_run; intros E; try impossible.
  all: simplify_run; eexists; split; [reflexivity|ends_with_logged].
Qed.

Lemma generate_pdf_alternative_success W s :
  wp generate_pdf_alternative W s (fun r s' =>
    r = Return (PyBool true) ->
    exists bytes,
      files s' = <[alternative_pdf_file := bytes]> (files s) /\
      ends_with s' [Print ("✅ Simple PDF created: " +:+ alternative_pdf_file)]).
Proof.
  unfold generate_pdf_alternative. wp_run; intros E; try impossible.
  all: simplify_run; eexists; split; [reflexivity|ends_with_logged].
Qed.

(** C7, amended. Every successful conversion writes exactly one file, at
    the path fixed for the backend that made it: the report's path for
    pdfkit and for WeasyPrint, the [-Simple] path for reportlab. After a
    successful pdfkit or WeasyPrint conversion the last line printed is the
    size of that file, in MB with two decimals. *)
Theorem successful_conversion_writes_one_file W s s' :
  (GeneratePdf.generate_pdf W s = (Return (PyBool true), s') ->
   exists bytes,
     files s' = <[GeneratePdf.pdf_file := bytes]> (files s) /\
     ends_with s'
       [Print ("📄 File size: "
               +:+ format_mb (N.of_nat (String.length bytes)) +:+ " MB")]) /\
  (generate_pdf_weasyprint W s = (Return (PyBool true), s') ->
   exists bytes,
     files s' = <[weasyprint_pdf_file := bytes]> (files s) /\
     ends_with s'
       [Print ("📄 File size: "
               +:+ format_mb (N.of_nat (String.length bytes)) +:+ " MB")]) /\
  (generate_pdf_alternative W s = (Return (PyBool true), s') ->
   exists bytes,
     files s' = <[alternative_pdf_file := bytes]> (files s) /\
     ends_with s' [Print ("✅ Simple PDF created: " +:+ alternative_pdf_file)]) /\
  GeneratePdf.pdf_file = weasyprint_pdf_file /\
  alternative_pdf_file <> weasyprint_pdf_file.
Proof.
  split; [|split; [|split; [|split]]].
  - intros E. exact (wp_eq _ _ _ _ _ _ E (generate_pdf_success W s) eq_refl).
  - intros E. exact (wp_eq _ _ _ _ _ _ E (generate_pdf_weasyprint_success W s) eq_refl).
  - intros E. exact (wp_eq _ _ _ _ _ _ E (generate_pdf_alternative_success W s) eq_refl).
  - reflexivity.
  - intros E. apply String.eqb_eq in E. vm_compute in E. discriminate E.
Qed.

(** The size line is lossy: files of 1000 and of 5000 bytes are both
    reported as [0.00 MB], and a file of one MiB as [1.00 MB]. *)
Lemma format_mb_examples :
  format_mb 1000 = "0.00" /\ format_mb 5000 = "0.00" /\
  format_mb 1048576 = "1.00" /\ format_mb 1572864 = "1.50" /\
  format_mb 123456789 = "117.74".
Proof. vm_compute. repeat split. Qed.

(** A successful WeasyPrint conversion exists, and writes the report. *)
Lemma successful_conversion_writes_one_file_witness :
  exists bytes,
    files (exec generate_pdf_weasyprint env_ok with_input)
    = <[weasyprint_pdf_file := bytes]> (files with_input) /\
    ends_with (exec generate_pdf_weasyprint env_ok with_input)
      [Print ("📄 File size: "
              +:+ format_mb (N.of_nat (String.length bytes)) +:+ " MB")].
Proof.
  apply (successful_conversion_writes_one_file env_ok with_input
           (exec generate_pdf_weasyprint env_ok with_input)).
  vm_compute. reflexivity.
Defined.

(** ** The availability checks *)

(** C8, as stated, fails: [install_requirements] returns [None], not a
    boolean, and [install_weasyprint] lets an exception of the first import
    that is not an [ImportError] propagate. *)
Lemma availability_check_can_return_none_or_raise :
  GeneratePdf.install_requirements env_ok with_input
  = (Return PyNone, logged (loaded with_input "pdfkit")
                      (Print "✅ pdfkit is already installed")) /\
  ~ returns_bool (GeneratePdf.install_requirements env_ok with_input).1 /\
  install_weasyprint env_broken_weasyprint with_input
  = (Raise (Exn OSError "cannot load library 'gobject-2.0-0'"), with_input) /\
  ~ returns_bool (install_weasyprint env_broken_weasyprint with_input).1.
Proof.
  split; [reflexivity|]. split; [intros [b E]; discriminate E|].
  split; [reflexivity|]. intros [b E]; discriminate E.
Qed.

(** C8, amended. [install_weasyprint] returns [True] when WeasyPrint can be
    imported. When the import raises an [ImportError] it runs
    [pip install weasyprint] and imports again: it returns [True] if that
    works and [False], with the exception's text printed, whatever the
    second import raises. In these cases it does not raise, and the boolean
    tells whether the module is loaded. [install_requirements] returns
    [None] in the same two cases: it prints that pdfkit is installed, or
    runs [pip install pdfkit] without importing again. *)
Theorem availability_checks W s :
  (importable W s "weasyprint" ->
   exists mods,
     "weasyprint" ∈ mods /\
     install_weasyprint W s
     = (Return (PyBool true),
        logged (with_modules mods s) (Print "✅ WeasyPrint is already installed"))) /\
  (forall e,
     "weasyprint" ∉ sys_modules s ->
     finder W (commands (trace s)) "weasyprint" = Some e ->
     issubclass (exn_class e) ImportError = true ->
     let s1 :=
       logged (logged s (Print "📦 Installing WeasyPrint..."))
         (System "pip install weasyprint") in
     match finder W (commands (trace s) ++ ["pip install weasyprint"]) "weasyprint" with
     | None =>
         install_weasyprint W s
         = (Return (PyBool true),
            logged (loaded s1 "weasyprint")
              (Print "✅ WeasyPrint installed successfully"))
     | Some e2 =>
         install_weasyprint W s
         = (Return (PyBool false),
            logged s1 (Print ("❌ Failed to install WeasyPrint: " +:+ exn_msg e2)))
     end) /\
  (importable W s "pdfkit" ->
   exists mods,
     GeneratePdf.install_requirements W s
     = (Return PyNone,
        logged (with_modules mods s) (Print "✅ pdfkit is already installed"))) /\
  (forall e,
     "pdfkit" ∉ sys_modules s ->
     finder W (commands (trace s)) "pdfkit" = Some e ->
     issubclass (exn_class e) ImportError = true ->
     GeneratePdf.install_requirements W s
     = (Return PyNone,
        logged (logged s (Print "📦 Installing pdfkit..."))
          (System "pip install pdfkit"))).
Proof.
  split; [|split; [|split]].
  - intros Hm.
    apply (wp_equation_such _ _ _ (fun mods => "weasyprint" ∈ mods)
             (fun mods => (_, logged (with_modules mods s) _))).
    unfold install_weasyprint. wp_run_precise.
    + exists (sys_modules s). split; [assumption|]. destruct s; reflexivity.
    + exists ({["weasyprint"]} ∪ sys_modules s). split; [set_solver|reflexivity].
    + destruct Hm as [Hm|Hm]; [contradiction|]. impossible.
  - intros e Hin He Hcls s1.
    destruct (finder W (commands (trace s) ++ ["pip install weasyprint"]) "weasyprint")
      as [e2|] eqn:He2.
    all: apply wp_equation; unfold install_weasyprint; wp_run_precise.
    all: try impossible.
    all: simplify_run; reflexivity.
  - intros Hm.
    apply (wp_equation_ex _ _ _ (fun mods => (_, logged (with_modules mods s) _))).
    unfold GeneratePdf.install_requirements. wp_run_precise.
    + exists (sys_modules s). destruct s; reflexivity.
    + exists ({["pdfkit"]} ∪ sys_modules s). reflexivity.
    + destruct Hm as [Hm|Hm]; [contradiction|]. impossible.
  - intros e Hin He Hcls.
    apply wp_equation; unfold GeneratePdf.install_requirements; wp_run_precise.
    all: try impossible.
    all: simplify_run; reflexivity.
Qed.

(** The cases of C8 exist: WeasyPrint missing and not installable (the
    check answers [False]), and pdfkit installed. *)
Lemma availability_checks_witness :
  (install_weasyprint env_no_weasyprint with_input
   = (Return (PyBool false),
      logged
        (logged (logged with_input (Print "📦 Installing WeasyPrint..."))
           (System "pip install weasyprint"))
        (Print ("❌ Failed to install WeasyPrint: "
                +:+ exn_msg (module_not_found "weasyprint"))))) /\
  exists mods,
    GeneratePdf.install_requirements env_ok with_input
    = (Return PyNone,
       logged (with_modules mods with_input) (Print "✅ pdfkit is already installed")).
Proof.
  destruct (availability_checks env_no_weasyprint with_input) as (_ & H2 & _).
  destruct (availability_checks env_ok with_input) as (_ & _ & H3 & _).
  split.
  - apply (H2 (module_not_found "weasyprint")); [set_solver|reflexivity..].
  - apply H3. right. reflexivity.
Defined.

(** ** The installation branch of generate_pdf.py *)

(** Where pdfkit is loaded, [install_requirements] only says so. *)
Lemma install_requirements_when_loaded W s :
  "pdfkit" ∈ sys_modules s ->
  GeneratePdf.install_requirements W s
  = (Return PyNone, logged s (Print "✅ pdfkit is already installed")).
Proof.
  intros Hin. apply wp_equation.
  unfold GeneratePdf.install_requirements. wp_run_precise; try impossible.
  reflexivity.
Qed.

Lemma main_block_trace W s :
  "pdfkit" ∈ sys_modules s ->
  wp GeneratePdf.main_block W s (fun r s' =>
    r = Return () /\
    exists evs, extends s evs s' /\
      Forall (fun ev => pdfkit_install_event ev = false) evs).
Proof.
  intros Hin. unfold GeneratePdf.main_block, GeneratePdf.install_requirements,
    GeneratePdf.generate_pdf.
  wp_run_precise; try impossible.
  all: split; [reflexivity|new_events].
Qed.

(** C10. Running [generate_pdf.py] never reaches the installation branch of
    [install_requirements]. If the [import pdfkit] at the top of the file
    raises, the run ends there and nothing else is executed; otherwise
    pdfkit is in [sys.modules] when [install_requirements] is called, the
    call takes the already-installed branch, and no event of the run is the
    installation message or the [pip install pdfkit] command. *)
Theorem pdfkit_install_branch_is_unreachable W s :
  (forall e,
     "pdfkit" ∉ sys_modules s ->
     finder W (commands (trace s)) "pdfkit" = Some e ->
     GeneratePdf.module_body W s = (Raise e, s)) /\
  (importable W s "pdfkit" ->
   exists mods,
     "pdfkit" ∈ mods /\
     GeneratePdf.module_body W s = GeneratePdf.main_block W (with_modules mods s)) /\
  (forall s1,
     "pdfkit" ∈ sys_modules s1 ->
     GeneratePdf.install_requirements W s1
     = (Return PyNone, logged s1 (Print "✅ pdfkit is already installed"))) /\
  (exists evs,
     extends s evs (exec GeneratePdf.module_body W s) /\
     Forall (fun ev => pdfkit_install_event ev = false) evs).
Proof.
  split; [|split; [|split]].
  - intros e Hin He. unfold GeneratePdf.module_body.
    apply bind_raise. unfold import_. rewrite decide_False by exact Hin.
    rewrite He. reflexivity.
  - intros Hm. unfold GeneratePdf.module_body.
    destruct (decide ("pdfkit" ∈ sys_modules s)) as [Hin|Hin].
    + exists (sys_modules s). split; [exact Hin|].
      replace (with_modules (sys_modules s) s) with s by (destruct s; reflexivity).
      apply (bind_return (import_ "pdfkit") (fun _ => GeneratePdf.main_block) W s ()).
      unfold import_. rewrite decide_True by exact Hin.
      reflexivity.
    + destruct Hm as [Hm|Hm]; [contradiction|].
      exists ({["pdfkit"]} ∪ sys_modules s). split; [set_solver|].
      apply (bind_return (import_ "pdfkit") (fun _ => GeneratePdf.main_block) W s ()).
      unfold import_. rewrite decide_False by exact Hin.
      rewrite Hm. reflexivity.
  - intros s1. apply install_requirements_when_loaded.
  - unfold exec.
    enough (wp GeneratePdf.module_body W s (fun _ s' =>
      exists evs, extends s evs s' /\
        Forall (fun ev => pdfkit_install_event ev = false) evs)) as H by exact H.
    unfold GeneratePdf.module_body. apply wp_bind. apply wp_import.
    + intros Hin. eapply wp_mono; [apply (main_block_trace W s Hin)|].
      intros r s' (_ & H). exact H.
    + intros Hin Hf. eapply wp_mono.
      { apply (main_block_trace W (loaded s "pdfkit")). cbn. set_solver. }
      intros r s' (_ & evs & HE & HF). exists evs. split; [exact HE|exact HF].
    + intros e Hin Hf. exists []. split; [apply extends_refl|constructor].
Qed.

(** The two cases of C10 exist: pdfkit missing (the run ends at the
    import) and pdfkit installed (the run goes on with the module
    loaded). *)
Lemma pdfkit_install_branch_is_unreachable_witness :
  GeneratePdf.module_body env_none with_input
  = (Raise (module_not_found "pdfkit"), with_input) /\
  exists mods,
    "pdfkit" ∈ mods /\
    GeneratePdf.module_body env_ok with_input
    = GeneratePdf.main_block env_ok (with_modules mods with_input).
Proof.
  split.
  - apply (pdfkit_install_branch_is_unreachable env_none with_input);
      [set_solver|reflexivity].
  - apply (pdfkit_install_branch_is_unreachable env_ok with_input).
    right. reflexivity.
Defined.

(** ** The structural extraction *)

Lemma new_Paragraph_accepted W s t st :
  reportlab_Paragraph W t st = None ->
  new_Paragraph t st W s = (Return (Paragraph t st), s).
Proof. intros H. unfold new_Paragraph. rewrite H. reflexivity. Qed.

(** When reportlab accepts the paragraphs, the loops append to the story
    what each element adds. *)
Lemma detail_row_step_accepted W s story detail_row :
  Forall (accepted W) (row_flowables detail_row) ->
  detail_row_step story detail_row W s
  = (Return (story ++ row_flowables detail_row), s).
Proof.
  unfold detail_row_step, row_flowables.
  destruct (find "div" (Some "detail-label") detail_row),
    (find "div" (Some "detail-content") detail_row);
    intros Hacc; rewrite ?app_nil_r; try reflexivity.
  apply Forall_cons_1 in Hacc as [Hp _].
  erewrite bind_return by (apply new_Paragraph_accepted; exact Hp).
  rewrite <- app_assoc. reflexivity.
Qed.

Lemma detail_rows_accepted W s rows story :
  Forall (accepted W) (flat_map row_flowables rows) ->
  for_each rows detail_row_step story W s
  = (Return (story ++ flat_map row_flowables rows), s).
Proof.
  revert story. induction rows as [|r rows IH]; intros story Hacc; cbn.
  - rewrite app_nil_r. reflexivity.
  - cbn in Hacc. apply Forall_app in Hacc as [Hr Hrows].
    erewrite bind_return by (apply detail_row_step_accepted; exact Hr).
    rewrite IH by exact Hrows. rewrite <- app_assoc. reflexivity.
Qed.

Lemma business_idea_step_accepted W s story business_idea :
  Forall (accepted W) (entry_flowables business_idea) ->
  business_idea_step story business_idea W s
  = (Return (story ++ entry_flowables business_idea), s).
Proof.
  unfold business_idea_step, entry_flowables. intros Hacc.
  apply Forall_app in Hacc as [Ht Hacc]. apply Forall_app in Hacc as [Hrows _].
  destruct (find "h3" None business_idea).
  - apply Forall_cons_1 in Ht as [Ht _].
    erewrite bind_return; cycle 1.
    { erewrite bind_return by (apply new_Paragraph_accepted; exact Ht). reflexivity. }
    erewrite bind_return by (apply detail_rows_accepted; exact Hrows).
    cbn [app]. rewrite <- !app_assoc. reflexivity.
  - erewrite bind_return by reflexivity.
    erewrite bind_return by (apply detail_rows_accepted; exact Hrows).
    cbn [app]. rewrite <- !app_assoc. reflexivity.
Qed.

Lemma business_ideas_accepted W s ideas story :
  Forall (accepted W) (flat_map entry_flowables ideas) ->
  for_each ideas business_idea_step story W s
  = (Return (story ++ flat_map entry_flowables ideas), s).
Proof.
  revert story. induction ideas as [|e ideas IH]; intros story Hacc; cbn.
  - rewrite app_nil_r. reflexivity.
  - cbn in Hacc. apply Forall_app in Hacc as [He Hideas].
    erewrite bind_return by (apply business_idea_step_accepted; exact He).
    rewrite IH by exact Hideas. rewrite <- app_assoc. reflexivity.
Qed.

Lemma build_story_accepted W soup :
  Forall (accepted W) (expected_story soup) ->
  story_result W soup = Return (expected_story soup).
Proof.
  unfold expected_story. intros Hacc.
  apply Forall_app in Hacc as [Hhead Hideas].
  apply Forall_cons_1 in Hhead as [Hp _].
  unfold story_result, build_story.
  erewrite bind_return by (apply new_Paragraph_accepted; exact Hp).
  rewrite business_ideas_accepted by exact Hideas. reflexivity.
Qed.

(** C9. A detail row without its label or without its content adds nothing
    to the story: its step returns the story as it was, prints nothing and
    raises nothing, and the loop over the rows before and after it runs as
    if the row were not there. *)
Theorem incomplete_detail_row_is_skipped W s story rows_before detail_row rows_after :
  find "div" (Some "detail-label") detail_row = None \/
  find "div" (Some "detail-content") detail_row = None ->
  detail_row_step story detail_row W s = (Return story, s) /\
  for_each (rows_before ++ detail_row :: rows_after) detail_row_step story W s
  = for_each (rows_before ++ rows_after) detail_row_step story W s.
Proof.
  intros H.
  assert (Hskip : forall st p, detail_row_step st detail_row W p = (Return st, p)).
  { intros st p. unfold detail_row_step.
    destruct H as [-> | ->]; [reflexivity|].
    destruct (find "div" (Some "detail-label") detail_row); reflexivity. }
  split; [apply Hskip|].
  revert story s. induction rows_before as [|r rows IH]; intros story s.
  - cbn [app for_each]. apply bind_return, Hskip.
  - cbn [app for_each]. unfold mbind, M_bind.
    destruct (detail_row_step story r W s) as [[st|e] s1]; [apply IH|reflexivity].
Qed.

(** A row of C9: a label with no content between two complete rows. *)
Lemma incomplete_detail_row_is_skipped_witness :
  let complete l c :=
    NTag "div" ["detail-row"]
      [NTag "div" ["detail-label"] [NText (lit l)];
       NTag "div" ["detail-content"] [NText (lit c)]] in
  let incomplete :=
    NTag "div" ["detail-row"] [NTag "div" ["detail-label"] [NText (lit "Risks:")]] in
  for_each ([complete "Market:" "Rural"] ++ incomplete :: [complete "Capital:" "Low"])
    detail_row_step [] env_ok with_input
  = for_each ([complete "Market:" "Rural"] ++ [complete "Capital:" "Low"])
      detail_row_step [] env_ok with_input.
Proof.
  intros complete incomplete.
  apply (incomplete_detail_row_is_skipped env_ok with_input []
           [complete "Market:" "Rural"] incomplete [complete "Capital:" "Low"]).
  right. reflexivity.
Defined.

Lemma is_prefix_app p t : is_prefix p (p ++ t) = true.
Proof.
  induction p as [|a p IH]; [reflexivity|]. cbn. rewrite N.eqb_refl. exact IH.
Qed.

Lemma is_infix_app p before after : is_infix p (before ++ p ++ after) = true.
Proof.
  induction before as [|b before IH].
  - cbn [app]. pose proof (is_prefix_app p after) as H.
    destruct (p ++ after); cbn; rewrite H; reflexivity.
  - cbn [app is_infix]. rewrite IH. apply orb_true_r.
Qed.

Lemma entry_section_of_fields business_idea f :
  has_fields business_idea f ->
  entry_flowables business_idea = entry_section f.
Proof.
  intros (Ht & row1 & row2 & Hrows & Hl1 & Hc1 & Hl2 & Hc2).
  unfold entry_flowables. rewrite Ht, Hrows. cbn [flat_map].
  unfold row_flowables. rewrite Hl1, Hc1, Hl2, Hc2. reflexivity.
Qed.

(** C5, as stated, fails. The label [" Market:"] and the content that ends
    with a line break are in the first document, and no paragraph of its
    story holds either of them as written: the story holds them trimmed.
    In the second document a content holds an [<i>] that is not closed:
    reportlab rejects the paragraph, no story is built, no conversion is
    called and the attempt returns [False]. *)
Lemma padded_fields_are_not_verbatim :
  length (find_all "div" (Some "business-idea") padded_soup) = 3 /\
  (exists story,
     story_result env_ok padded_soup = Return story /\
     existsb (paragraph_contains (lit " Market:")) story = false /\
     existsb (paragraph_contains (lit ("East Africa" +:+ nl))) story = false /\
     existsb (paragraph_contains (lit "<b>Market:</b> East Africa")) story = true) /\
  length (find_all "div" (Some "business-idea") markup_soup) = 3 /\
  (exists e, story_result env_markup markup_soup = Raise e /\
             exn_class e = ValueError) /\
  (generate_pdf_alternative env_markup with_input).1 = Return (PyBool false) /\
  existsb conversion_call (trace (exec generate_pdf_alternative env_markup with_input))
  = false /\
  files (exec generate_pdf_alternative env_markup with_input) = files with_input.
Proof.
  split; [reflexivity|]. split.
  { eexists. split; [vm_compute; reflexivity|]. vm_compute. repeat split. }
  split; [reflexivity|]. split.
  { eexists. split; [vm_compute; reflexivity|]. reflexivity. }
  vm_compute. repeat split.
Qed.

(** C5, amended. For a document with exactly three entry blocks, each with
    a title and exactly two detail rows that have a label and a content,
    and whose paragraphs reportlab accepts, the story is the title part
    followed by exactly three sections in the order of the document; each
    section is the heading with the title, the two field paragraphs in
    order, and the closing spacer; each field paragraph contains the text
    of its label and of its content with the white space around it removed,
    and otherwise as written. *)
Theorem three_entries_give_three_sections W soup e1 e2 e3 f1 f2 f3 :
  find_all "div" (Some "business-idea") soup = [e1; e2; e3] ->
  has_fields e1 f1 -> has_fields e2 f2 -> has_fields e3 f3 ->
  Forall (accepted W)
    (story_head ++ entry_section f1 ++ entry_section f2 ++ entry_section f3) ->
  story_result W soup
  = Return (story_head ++ entry_section f1 ++ entry_section f2 ++ entry_section f3) /\
  Forall (fun f =>
    paragraph_contains (strip (get_text (label1 f)))
      (field_paragraph (label1 f) (content1 f)) = true /\
    paragraph_contains (strip (get_text (content1 f)))
      (field_paragraph (label1 f) (content1 f)) = true /\
    paragraph_contains (strip (get_text (label2 f)))
      (field_paragraph (label2 f) (content2 f)) = true /\
    paragraph_contains (strip (get_text (content2 f)))
      (field_paragraph (label2 f) (content2 f)) = true) [f1; f2; f3].
Proof.
  intros Hall H1 H2 H3 Hacc. split.
  - assert (E : expected_story soup
              = story_head ++ entry_section f1 ++ entry_section f2 ++ entry_section f3).
    { unfold expected_story. rewrite Hall. cbn [flat_map].
      rewrite (entry_section_of_fields _ _ H1), (entry_section_of_fields _ _ H2),
        (entry_section_of_fields _ _ H3), app_nil_r.
      reflexivity. }
    rewrite <- E. apply build_story_accepted. rewrite E. exact Hacc.
  - assert (Hl : forall l c,
      paragraph_contains (strip (get_text l)) (field_paragraph l c) = true).
    { intros l c. apply (is_infix_app _ (lit "<b>")). }
    assert (Hc : forall l c,
      paragraph_contains (strip (get_text c)) (field_paragraph l c) = true).
    { intros l c. unfold field_paragraph, paragraph_contains.
      generalize (strip (get_text c)) (strip (get_text l)) (lit "<b>") (lit "</b> ").
      intros tc tl open close.
      replace (open ++ tl ++ close ++ tc) with ((open ++ tl ++ close) ++ tc ++ [])
        by (rewrite app_nil_r, <- !app_assoc; reflexivity).
      apply is_infix_app. }
    repeat constructor; auto.
Qed.

(** The padded document satisfies the hypotheses of the amended claim where
    reportlab accepts every paragraph: its story is three sections in
    order. *)
Lemma three_entries_give_three_sections_witness :
  let nodes title l1 c1 l2 c2 :=
    EntryNodes (NTag "h3" [] [NText (lit title)])
      (NTag "div" ["detail-label"] [NText (lit l1)])
      (NTag "div" ["detail-content"] [NText (lit c1)])
      (NTag "div" ["detail-label"] [NText (lit l2)])
      (NTag "div" ["detail-content"] [NText (lit c2)]) in
  story_result env_ok padded_soup
  = Return
      (story_head
         ++ entry_section (nodes "1. Mobile Money" " Market:" ("East Africa" +:+ nl)
                             "Capital:" "Low")
         ++ entry_section (nodes "2. Solar Kiosks" "Market:" "Rural" "Capital:" "Medium")
         ++ entry_section (nodes "3. Agri Logistics" "Market:" "Regional" "Capital:" "High")).
Proof.
  intros nodes.
  apply (three_entries_give_three_sections env_ok padded_soup
           (entry_tag "1. Mobile Money" " Market:" ("East Africa" +:+ nl) "Capital:" "Low")
           (entry_tag "2. Solar Kiosks" "Market:" "Rural" "Capital:" "Medium")
           (entry_tag "3. Agri Logistics" "Market:" "Regional" "Capital:" "High")).
  - reflexivity.
  - split; [reflexivity|]. do 2 eexists. repeat split; reflexivity.
  - split; [reflexivity|]. do 2 eexists. repeat split; reflexivity.
  - split; [reflexivity|]. do 2 eexists. repeat split; reflexivity.
  - repeat constructor.
Defined.

(** ** The formatting configurations *)

(** Checks every new event against a property of the conversion calls. *)
Ltac conversion_events :=
  eexists; split; [extends_steps|];
  cbn [app];
  repeat (apply Forall_cons; split;
          [intros Hcall; first [discriminate Hcall|reflexivity]|]);
  apply Forall_nil_2.

Lemma generate_pdf_passes_options W s :
  wp GeneratePdf.generate_pdf W s (fun _ s' =>
    exists evs, extends s evs s' /\
      Forall (fun ev => conversion_call ev = true ->
                ev = FromFile GeneratePdf.html_file GeneratePdf.pdf_file
                       GeneratePdf.options) evs).
Proof. unfold GeneratePdf.generate_pdf. wp_run; conversion_events. Qed.

Lemma generate_pdf_weasyprint_passes_css W s :
  wp generate_pdf_weasyprint W s (fun _ s' =>
    exists evs, extends s evs s' /\
      Forall (fun ev => conversion_call ev = true ->
                ev = WritePdf html_file weasyprint_pdf_file [pdf_css]) evs).
Proof. unfold generate_pdf_weasyprint. wp_run; conversion_events. Qed.

(** C6, as stated, fails: the WeasyPrint stylesheet sets a page margin of
    2cm on all sides, which is not the 0.75in of the pdfkit options. *)
Lemma margins_differ_between_backends :
  page_declaration pdf_css "margin" = Some "2cm" /\
  GeneratePdf.options !! "margin-top" = Some (OStr "0.75in") /\
  length_micrometres "2cm" = Some 20000%N /\
  length_micrometres "0.75in" = Some 19050%N.
Proof. vm_compute. repeat split. Qed.

(** C6, amended. The pdfkit options hold 0.75in for each of the four
    margins, and every call of [pdfkit.from_file] receives these options
    unchanged. The WeasyPrint attempt has its own configuration, the
    stylesheet of the script, which every call of [write_pdf] receives
    unchanged: one 2cm margin for all sides, 10pt header and footer against
    pdfkit's size 9. The page size, A4, and the header text are the same
    for both. *)
Theorem formatting_configurations W s :
  (GeneratePdf.options !! "margin-top" = Some (OStr "0.75in") /\
   GeneratePdf.options !! "margin-right" = Some (OStr "0.75in") /\
   GeneratePdf.options !! "margin-bottom" = Some (OStr "0.75in") /\
   GeneratePdf.options !! "margin-left" = Some (OStr "0.75in")) /\
  (exists evs,
     extends s evs (exec GeneratePdf.generate_pdf W s) /\
     Forall (fun ev => conversion_call ev = true ->
               ev = FromFile GeneratePdf.html_file GeneratePdf.pdf_file
                      GeneratePdf.options) evs) /\
  (exists evs,
     extends s evs (exec generate_pdf_weasyprint W s) /\
     Forall (fun ev => conversion_call ev = true ->
               ev = WritePdf html_file weasyprint_pdf_file [pdf_css]) evs) /\
  (page_declaration pdf_css "margin" = Some "2cm" /\
   page_declaration pdf_css "margin-top" = None /\
   page_declaration pdf_css "margin-right" = None /\
   page_declaration pdf_css "margin-bottom" = None /\
   page_declaration pdf_css "margin-left" = None) /\
  (GeneratePdf.options !! "page-size" = Some (OStr "A4") /\
   page_declaration pdf_css "size" = Some "A4") /\
  (GeneratePdf.options !! "header-center"
   = Some (OStr "Top 20 Scalable Business Ideas for Kenya & Africa") /\
   exists boxes decls,
     pdf_css !! 0%nat = Some (PageRule decls boxes) /\
     (list_to_map boxes : gmap string (list (string * string))) !! "@top-center"
     = Some [("content",
              dq +:+ "Top 20 Scalable Business Ideas for Kenya & Africa" +:+ dq);
             ("font-size", "10pt"); ("color", "#666");
             ("border-bottom", "1px solid #ccc"); ("padding-bottom", "5px")] /\
     (list_to_map boxes : gmap string (list (string * string))) !! "@bottom-center"
     = Some [("content",
              dq +:+ "Page " +:+ dq +:+ " counter(page) " +:+ dq +:+ " of " +:+ dq
                 +:+ " counter(pages)");
             ("font-size", "10pt"); ("color", "#666")]) /\
  GeneratePdf.options !! "footer-center" = Some (OStr "Page [page] of [topage]") /\
  GeneratePdf.options !! "header-font-size" = Some (OStr "9") /\
  GeneratePdf.options !! "footer-font-size" = Some (OStr "9").
Proof.
  split; [vm_compute; repeat split|].
  split; [exact (generate_pdf_passes_options W s)|].
  split; [exact (generate_pdf_weasyprint_passes_css W s)|].
  split; [vm_compute; repeat split|].
  split; [vm_compute; repeat split|].
  split; [|vm_compute; repeat split].
  split; [vm_compute; reflexivity|].
  do 2 eexists. split; [reflexivity|]. split; vm_compute; reflexivity.
Qed.

(** ** Further properties of the scripts *)

(** *** When an attempt succeeds *)








(** *** The story that is built *)









(** *** How a run of [main] ends *)








(** *** The size that is reported *)





(** *** Trimmed headings *)








(** *** The run of generate_pdf.py *)




(** *** A document without entries *)


